(** * Daily-log side panel: a shallow embedding of [popup.js]

    The repository ships two variants of the popup script:
    [src/popup.js] and [src/unnamed/part_000].  They share [saveState],
    [logEntry], the two submit handlers and [updateUIState] verbatim and
    differ only in the callback passed to [chrome.storage.local.get].

    Layout of this file:
    - [Host]: the parts of JavaScript the script relies on (strings, plain
      objects, [Array.prototype.sort], [Date]);
    - the script itself, in a state-and-exception monad over an explicit
      object store, so that aliasing between [currentLog] and
      [logs[todayKey]] is visible;
    - the vocabulary of the statements;
    - facts about the host model and about runs of the script, then the
      properties of the log state model. *)

From Stdlib Require Import ZArith String Ascii Sorted Permutation Lia.
From stdpp Require Import base list.

Local Open Scope string_scope.
Local Open Scope Z_scope.

(* ===================================================================== *)
(** * Host language model *)
(* ===================================================================== *)

Module Host.

(** ** Strings

    A JavaScript string is a sequence of UTF-16 code units.  It is modelled
    by [string], one [ascii] per code unit, which covers the code units
    below 256; every key the script builds is made of ASCII digits, [-]
    and [:]. *)

(** The code units below 256 that [String.prototype.trim] strips: TAB, LF,
    VT, FF, CR, SP and NBSP. *)
Definition isWhiteSpace (c : ascii) : bool :=
  let n := N_of_ascii c in
  ((9 <=? n) && (n <=? 13) || (n =? 32) || (n =? 160))%N.

Fixpoint trimStart (s : string) : string :=
  match s with
  | EmptyString => EmptyString
  | String c s' => if isWhiteSpace c then trimStart s' else s
  end.

(** [trimEnd] keeps a character when it is not white space or when
    something survives to its right. *)
Fixpoint trimEnd (s : string) : string :=
  match s with
  | EmptyString => EmptyString
  | String c s' =>
      match trimEnd s' with
      | EmptyString => if isWhiteSpace c then EmptyString else String c EmptyString
      | r => String c r
      end
  end.

(** [s.trim()] *)
Definition trim (s : string) : string := trimEnd (trimStart s).

(** [s.slice(0, n)] for [0 <= n]. *)
Definition slice0 (n : nat) (s : string) : string := substring 0 n s.

(** Truthiness of a string value: only the empty string is falsy. *)
Definition truthy (s : string) : bool :=
  match s with EmptyString => false | _ => true end.

(** Truthiness of a possibly-[undefined] string. *)
Definition truthyOpt (o : option string) : bool :=
  match o with None => false | Some s => truthy s end.

(** Comparison of two strings by code units, as a number of the sign that
    a JavaScript comparator returns. *)
Definition codeUnitCompare (a b : string) : Z :=
  match String.compare a b with
  | Lt => -1
  | Eq => 0
  | Gt => 1
  end.

(** ** Plain objects

    An object used as a dictionary is an association list in property
    creation order, which is the order [Object.keys] and [Object.entries]
    enumerate string keys that are not array indices.  Keys are unique in a
    JavaScript object; [objWf] states it for the representation. *)

Abbreviation obj V := (list (string * V)).

(** [o[k]]; [None] stands for [undefined]. *)
Fixpoint objGet {V} (o : obj V) (k : string) : option V :=
  match o with
  | [] => None
  | (k', v) :: o' => if String.eqb k' k then Some v else objGet o' k
  end.

(** [o[k] = v]: an existing property keeps its place, a new one goes last. *)
Fixpoint objSet {V} (o : obj V) (k : string) (v : V) : obj V :=
  match o with
  | [] => [(k, v)]
  | (k', v') :: o' =>
      if String.eqb k' k then (k', v) :: o' else (k', v') :: objSet o' k v
  end.

(** [Object.keys(o)] and [Object.entries(o)]. *)
Definition objKeys {V} (o : obj V) : list string := map fst o.
Definition objEntries {V} (o : obj V) : list (string * V) := o.

Fixpoint noDupKeys (ks : list string) : bool :=
  match ks with
  | [] => true
  | k :: ks' => negb (existsb (String.eqb k) ks') && noDupKeys ks'
  end.

Definition objWf {V} (o : obj V) : bool := noDupKeys (objKeys o).

(** ** [Array.prototype.sort]

    The specification of [sort] fixes the result for a consistent
    comparator and asks for a stable sort; a stable insertion sort is used
    as its model.  [cmp x y <= 0] keeps [x] in front of [y]. *)

Fixpoint sortInsert {A} (cmp : A -> A -> Z) (x : A) (l : list A) : list A :=
  match l with
  | [] => [x]
  | y :: l' => if cmp x y <=? 0 then x :: y :: l' else y :: sortInsert cmp x l'
  end.

Definition arraySort {A} (cmp : A -> A -> Z) (l : list A) : list A :=
  foldr (sortInsert cmp) [] l.

(** [a.at(-1)] *)
Definition atLast {A} (l : list A) : option A := last l.

(** ** [Date]

    A clock reading is the time value of [new Date()] (milliseconds since
    the epoch, UTC) together with the local time zone adjustment in effect
    at that instant (milliseconds to add to get local time). *)

Record Clock : Type := mkClock { timeValue : Z; localTZA : Z }.

Definition msPerDay : Z := 86400000.
Definition msPerHour : Z := 3600000.
Definition msPerMinute : Z := 60000.
Definition msPerSecond : Z := 1000.

Definition Day (t : Z) : Z := t / msPerDay.
Definition HourFromTime (t : Z) : Z := (t / msPerHour) mod 24.
Definition MinFromTime (t : Z) : Z := (t / msPerMinute) mod 60.
Definition SecFromTime (t : Z) : Z := (t / msPerSecond) mod 60.
Definition msFromTime (t : Z) : Z := t mod msPerSecond.
Definition LocalTime (c : Clock) : Z := timeValue c + localTZA c.

(** Proleptic Gregorian date of a day number (days since 1970-01-01), in
    closed form: (year, month 1..12, day of month 1..31). *)
Definition civilFromDays (days : Z) : Z * Z * Z :=
  let z := days + 719468 in
  let era := z / 146097 in
  let doe := z - era * 146097 in
  let yoe := (doe - doe / 1460 + doe / 36524 - doe / 146096) / 365 in
  let doy := doe - (365 * yoe + yoe / 4 - yoe / 100) in
  let mp := (5 * doy + 2) / 153 in
  let d := doy - (153 * mp + 2) / 5 + 1 in
  let m := if mp <? 10 then mp + 3 else mp - 9 in
  let y := yoe + era * 400 + (if m <=? 2 then 1 else 0) in
  (y, m, d).

Definition YearFromTime (t : Z) : Z := fst (fst (civilFromDays (Day t))).
Definition MonthFromTime (t : Z) : Z := snd (fst (civilFromDays (Day t))).
Definition DateFromTime (t : Z) : Z := snd (civilFromDays (Day t)).

Definition digitChar (n : Z) : ascii := ascii_of_N (48 + Z.to_N (n mod 10)).

(** The [w] low decimal digits of [n], most significant first. *)
Fixpoint padDigits (w : nat) (n : Z) : string :=
  match w with
  | O => ""
  | S w' => padDigits w' (n / 10) ++ String (digitChar n) ""
  end.

(** The year of an ISO date-time string: four digits for years 0 to 9999,
    otherwise a sign and six digits. *)
Definition isoYear (y : Z) : string :=
  if (0 <=? y) && (y <=? 9999) then padDigits 4 y
  else (if y <? 0 then "-" else "+") ++ padDigits 6 (Z.abs y).

(** The calendar date [YYYY-MM-DD] of a time value. *)
Definition isoDate (t : Z) : string :=
  isoYear (YearFromTime t) ++ "-" ++ padDigits 2 (MonthFromTime t)
    ++ "-" ++ padDigits 2 (DateFromTime t).

(** The time of day [HH:MM:SS] of a time value. *)
Definition hms (t : Z) : string :=
  padDigits 2 (HourFromTime t) ++ ":" ++ padDigits 2 (MinFromTime t)
    ++ ":" ++ padDigits 2 (SecFromTime t).

(** [d.toISOString()]: date and time of the time value itself, that is in
    UTC, whatever the local zone. *)
Definition toISOString (c : Clock) : string :=
  isoDate (timeValue c) ++ "T" ++ hms (timeValue c)
    ++ "." ++ padDigits 3 (msFromTime (timeValue c)) ++ "Z".

(** [d.toTimeString()]: time of day of the local time, then the zone
    offset.  The implementation-defined zone name that may follow is left
    empty. *)
Definition toTimeString (c : Clock) : string :=
  let off := localTZA c / msPerMinute in
  hms (LocalTime c) ++ " GMT" ++ (if off <? 0 then "-" else "+")
    ++ padDigits 2 (Z.abs off / 60) ++ padDigits 2 (Z.abs off mod 60).

End Host.

Import Host.

(* ===================================================================== *)
(** * The popup script *)
(* ===================================================================== *)

(** A day log maps time keys to entry texts; the collection maps day keys
    to day logs.  Day-log objects live in a store and are held by
    reference ([loc]), because the script keeps two handles on the same
    object: [logs[todayKey]] and [currentLog]. *)

Abbreviation DayLog := (obj string).
Abbreviation loc := nat.

(** What the panel shows after a render. *)
Record View : Type := mkView {
  addLogDisabled : bool;
  showLogsDisabled : bool;
  todayList : list (string * string);
  allList : list (string * list (string * string))
}.

(** The argument of one [chrome.storage.local.set] call, as serialised at
    the call: object graphs are stored by value. *)
Record Stored : Type := mkStored {
  storedLogs : obj DayLog;
  storedCurrentLog : option DayLog
}.

Record State : Type := mkState {
  heap : list DayLog;          (* the day-log objects, by address *)
  logs : obj loc;              (* [let logs] *)
  currentLog : option loc;     (* [let currentLog]; [None] is [null] or [undefined] *)
  storageWrites : list Stored; (* every [set] issued so far, oldest first *)
  view : View                  (* the two lists and the two buttons *)
}.

(** The object at an address. *)
Definition deref (h : list DayLog) (l : loc) : DayLog := default [] (h !! l).

(** The collection by value, as serialisation sees it. *)
Definition collection (s : State) : obj DayLog :=
  map (fun kl => (fst kl, deref (heap s) (snd kl))) (logs s).

(** The current-day view by value. *)
Definition currentDay (s : State) : option DayLog :=
  deref (heap s) <$> currentLog s.

(** ** State and exceptions

    A computation runs from a state to a state and either yields a value or
    stops at an uncaught [TypeError] ([None]); effects before the throw
    stay. *)

Definition M (A : Type) : Type := State -> State * option A.

Definition ret {A} (a : A) : M A := fun s => (s, Some a).

Definition bind {A B} (m : M A) (f : A -> M B) : M B :=
  fun s =>
    match m s with
    | (s', Some a) => f a s'
    | (s', None) => (s', None)
    end.

Notation "'let*' x ':=' m 'in' k" := (bind m (fun x => k))
  (at level 10, x name, m at level 100, k at level 200).
Notation "m ';;' k" := (bind m (fun _ => k))
  (at level 100, k at level 200, right associativity).

Definition getLogs : M (obj loc) := fun s => (s, Some (logs s)).

Definition setLogs (l : obj loc) : M unit := fun s =>
  (mkState (heap s) l (currentLog s) (storageWrites s) (view s), Some tt).

Definition setCurrentLog (c : option loc) : M unit := fun s =>
  (mkState (heap s) (logs s) c (storageWrites s) (view s), Some tt).

Definition setView (v : View) : M unit := fun s =>
  (mkState (heap s) (logs s) (currentLog s) (storageWrites s) v, Some tt).

(** A new object with the given properties; [newObject []] is [{}]. *)
Definition newObject (o : DayLog) : M loc := fun s =>
  (mkState (heap s ++ [o])%list (logs s) (currentLog s) (storageWrites s) (view s),
   Some (length (heap s))).

(** Using [currentLog] as an object: property access on [null] throws. *)
Definition currentLogObject : M loc := fun s =>
  match currentLog s with
  | Some l => (s, Some l)
  | None => (s, None)
  end.

Definition readObject (l : loc) : M DayLog := fun s =>
  (s, Some (deref (heap s) l)).

(** [l[k]] *)
Definition readProp (l : loc) (k : string) : M (option string) := fun s =>
  (s, Some (objGet (deref (heap s) l) k)).

(** [l[k] = v] *)
Definition writeProp (l : loc) (k v : string) : M unit := fun s =>
  (mkState (<[l := objSet (deref (heap s) l) k v]> (heap s))
     (logs s) (currentLog s) (storageWrites s) (view s), Some tt).

(** The value [chrome.storage.local.get] hands to its callback under
    ["logs"]: a freshly built object graph, one new object per day. *)
Fixpoint fromStorage (p : obj DayLog) : M (obj loc) :=
  match p with
  | [] => ret []
  | (k, d) :: p' =>
      let* l := newObject d in
      let* r := fromStorage p' in
      ret ((k, l) :: r)
  end.

(** [chrome.storage.local.set({ logs, currentLog })] *)
Definition storageSet : M unit := fun s =>
  (mkState (heap s) (logs s) (currentLog s)
     (storageWrites s ++ [mkStored (collection s) (currentDay s)])%list (view s),
   Some tt).

(** [d.toTimeString().slice(0, 8)], the time key of an entry. *)
Definition currentTimeOf (d : Clock) : string := slice0 8 (toTimeString d).

(** [new Date().toISOString().slice(0, 10)], the day key of a session. *)
Definition todayKeyOf (d : Clock) : string := slice0 10 (toISOString d).

(** The properties of [o] named [k]; a JavaScript object has at most one. *)
Definition propsNamed {V} (o : obj V) (k : string) : list (string * V) :=
  List.filter (fun e => String.eqb (fst e) k) o.

Section Panel.

(** [String.prototype.localeCompare] belongs to the host and its collation
    to the locale; the script is embedded over any such function. *)
Variable localeCompare : string -> string -> Z.

(** The comparator of the three [sort] calls:
    [([keyA], [keyB]) => keyB.localeCompare(keyA)]. *)
Definition newestFirst {V} (a b : string * V) : Z :=
  localeCompare (fst b) (fst a).

Definition renderToday (cur : DayLog) : list (string * string) :=
  let hasCurrentLog := (0 <? length (objKeys cur))%nat in
  if hasCurrentLog then arraySort newestFirst (objEntries cur) else [].

Definition renderAll (h : list DayLog) (lg : obj loc)
  : list (string * list (string * string)) :=
  let hasLogs := (0 <? length (objKeys lg))%nat in
  if hasLogs then
    map (fun kv => (fst kv, arraySort newestFirst (objEntries (deref h (snd kv)))))
        (arraySort newestFirst (objEntries lg))
  else [].

(** [updateUIState]: both lists are cleared and rebuilt. *)
Definition updateUIState : M unit :=
  let* cl := currentLogObject in
  let* cur := readObject cl in
  let* lg := getLogs in
  let hasCurrentLog := (0 <? length (objKeys cur))%nat in
  let hasLogs := (0 <? length (objKeys lg))%nat in
  fun s =>
    setView (mkView (negb hasCurrentLog) (negb hasLogs)
               (renderToday cur) (renderAll (heap s) lg)) s.

Definition saveState : M unit :=
  storageSet ;;
  updateUIState.

(** [logEntry(newLog)], with [d] the reading of [new Date()].  The two
    [console.log] calls have no effect on the panel and are left out. *)
Definition logEntry (d : Clock) (newLog : string) : M unit :=
  let currentTime := currentTimeOf d in
  let* cl := currentLogObject in
  let* old := readProp cl currentTime in
  (if negb (truthyOpt old) then writeProp cl currentTime "" else ret tt) ;;
  writeProp cl currentTime newLog ;;
  saveState.

Record KeyEvent : Type := mkKeyEvent { key : string; shiftKey : bool }.

(** [(logInput.value || "")] *)
Definition valueOrEmpty (value : string) : string :=
  if truthy value then value else "".

(** The [keydown] listener of the text area; [value] is [logInput.value].
    [e.preventDefault()] only stops the newline from being typed. *)
Definition onKeydown (e : KeyEvent) (value : string) (d : Clock) : M unit :=
  if String.eqb (key e) "Enter" && negb (shiftKey e) then
    let newLog := trim (valueOrEmpty value) in
    if truthy newLog then logEntry d newLog else ret tt
  else ret tt.

(** The [click] listener of the add button. *)
Definition onAddLogClick (value : string) (d : Clock) : M unit :=
  let newLog := trim (valueOrEmpty value) in
  if truthy newLog then logEntry d newLog else ret tt.

(** [result.logs || {}]: the stored collection, or a new empty one. *)
Definition loadLogs (resultLogs : option (obj DayLog)) : M (obj loc) :=
  match resultLogs with
  | Some p => fromStorage p
  | None => ret []
  end.

(** The [chrome.storage.local.get] callback of [src/popup.js]. *)
Definition onStorageLoaded_popup (resultLogs : option (obj DayLog)) (d : Clock)
  : M unit :=
  let* l := loadLogs resultLogs in
  setLogs l ;;
  let* lg := getLogs in
  let latestKey := atLast (arraySort codeUnitCompare (objKeys lg)) in
  let todayKey := todayKeyOf d in
  (if negb (truthyOpt latestKey) then
     let* o := newObject [] in
     setLogs (objSet lg todayKey o)
   else ret tt) ;;
  let* lg := getLogs in
  let* c := match objGet lg todayKey with
            | Some o => ret o
            | None => newObject []
            end in
  setCurrentLog (Some c) ;;
  saveState.

(** The [chrome.storage.local.get] callback of [src/unnamed/part_000].
    A day log is an object, hence truthy: [!logs[todayKey]] holds exactly
    when the property is missing. *)
Definition onStorageLoaded_part000 (resultLogs : option (obj DayLog)) (d : Clock)
  : M unit :=
  let* l := loadLogs resultLogs in
  setLogs l ;;
  let todayKey := todayKeyOf d in
  let* lg := getLogs in
  (match objGet lg todayKey with
   | None =>
       let* o := newObject [] in
       setLogs (objSet lg todayKey o)
   | Some _ => ret tt
   end) ;;
  let* lg := getLogs in
  setCurrentLog (objGet lg todayKey) ;;
  saveState.

End Panel.

(* ===================================================================== *)
(** * Vocabulary of the statements *)
(* ===================================================================== *)

(** The day log a [logEntry] at time key [t] leaves behind: the slot is
    first initialised when it is missing or empty, then assigned. *)
Definition dayAfterEntry (o : DayLog) (t newLog : string) : DayLog :=
  objSet (if negb (truthyOpt (objGet o t)) then objSet o t "" else o) t newLog.

(** The store after the two assignments of [logEntry] through [cl]. *)
Definition heapAfterEntry (h : list DayLog) (cl : loc) (t newLog : string)
  : list DayLog :=
  let h1 := if negb (truthyOpt (objGet (deref h cl) t))
            then <[cl := objSet (deref h cl) t ""]> h else h in
  <[cl := objSet (deref h1 cl) t newLog]> h1.

(** The days of a stored collection; nothing when none was stored. *)
Definition daysOf (resultLogs : option (obj DayLog)) : obj DayLog :=
  match resultLogs with Some p => p | None => [] end.

(** The references [fromStorage] hands out, counting from address [n]. *)
Fixpoint locate (n : nat) (p : obj DayLog) : obj loc :=
  match p with
  | [] => []
  | (k, _) :: p' => (k, n) :: locate (S n) p'
  end.

(** The state once [logs = result.logs || {}] has run. *)
Definition loadedState (resultLogs : option (obj DayLog)) (s : State) : State :=
  mkState (heap s ++ map snd (daysOf resultLogs))%list
    (locate (length (heap s)) (daysOf resultLogs))
    (currentLog s) (storageWrites s) (view s).

(** Whether [src/popup.js] takes its [if (!latestKey)] branch. *)
Definition noLatestKey (lg : obj loc) : bool :=
  negb (truthyOpt (atLast (arraySort codeUnitCompare (objKeys lg)))).

(** [day'] has every entry of [day], with the same text at every time key
    other than [t]. *)
Definition keepsAllBut (t : string) (day day' : DayLog) : Prop :=
  (forall t', t' <> t -> objGet day' t' = objGet day t') /\
  (forall t', is_Some (objGet day t') -> is_Some (objGet day' t')).

(** What every state of a session with day key [tk] satisfies once the
    storage callback has run: [currentLog] is a live object, and no day
    other than [tk] shares it. *)
Definition panelInv (tk : string) (s : State) : bool :=
  match currentLog s with
  | None => false
  | Some cl =>
      (cl <? length (heap s))%nat &&
      forallb (fun kl => String.eqb (fst kl) tk || negb (snd kl =? cl)%nat)
              (logs s)
  end.

Definition isDigit (c : ascii) : bool :=
  let n := N_of_ascii c in ((48 <=? n) && (n <=? 57))%N.

(** The shape [HH:MM:SS] of a time key. *)
Definition isTimeKey (s : string) : bool :=
  match s with
  | String h1 (String h2 (String c1 (String m1 (String m2 (String c2
      (String s1 (String s2 EmptyString))))))) =>
      isDigit h1 && isDigit h2 && Ascii.eqb c1 ":" && isDigit m1 && isDigit m2
      && Ascii.eqb c2 ":" && isDigit s1 && isDigit s2
  | _ => false
  end.

(** The shape [YYYY-MM-DD] of a day key. *)
Definition isDayKey (s : string) : bool :=
  match s with
  | String y1 (String y2 (String y3 (String y4 (String c1 (String m1
      (String m2 (String c2 (String d1 (String d2 EmptyString))))))))) =>
      isDigit y1 && isDigit y2 && isDigit y3 && isDigit y4 && Ascii.eqb c1 "-"
      && isDigit m1 && isDigit m2 && Ascii.eqb c2 "-" && isDigit d1 && isDigit d2
  | _ => false
  end.

(** The host's collation orders the strings of one shape as their code
    units do.  For the two key shapes this holds of every locale: the
    separators sit at the same places and digits collate in numeric
    order. *)
Definition collatesByCodeUnit (shape : string -> bool)
    (localeCompare : string -> string -> Z) : Prop :=
  forall a b, shape a = true -> shape b = true ->
    Z.sgn (localeCompare a b) = codeUnitCompare a b.

(** Keys in descending lexicographic order: no key is below its
    successor. *)
Definition newestFirstOrder (ks : list string) : Prop :=
  Sorted (fun a b => String.leb b a = true) ks.

(** Every day key and every time key of the state has its shape. *)
Definition keysShaped (s : State) : bool :=
  forallb isDayKey (objKeys (logs s))
  && forallb (fun o : DayLog => forallb isTimeKey (objKeys o)) (heap s).

(** A stored collection whose keys have the shapes of the data model. *)
Definition storedShaped (p : obj DayLog) : bool :=
  forallb isDayKey (objKeys p)
  && forallb (fun o : DayLog => forallb isTimeKey (objKeys o)) (map snd p).

(** The day key as the specification words it, "computed from the current
    local date": the calendar date of the local time of the reading. *)
Definition localDateKey (d : Clock) : string := isoDate (LocalTime d).

(** The panel when [DOMContentLoaded] has run and the storage callback has
    not: [logs = {}], [currentLog = null], nothing written, empty lists. *)
Definition initialState : State :=
  mkState [] [] None [] (mkView false false [] []).

(** A collection stored on 15 January 2024, read back on the 16th. *)
Definition storedYesterday : obj DayLog :=
  [("2024-01-15", [("10:30:00", "Morning standup")])].

(** 16 January 2024, 10:13:20 UTC, in a zone five and a half hours ahead. *)
Definition nextMorning : Clock := mkClock 1705400000000 19800000.

(** Half a second after [nextMorning]. *)
Definition sameSecond : Clock := mkClock 1705400000500 19800000.

(** A session of 16 January 2024 with one entry today and one on the day
    before; [currentLog] is the object of today. *)
Definition sampleState : State :=
  mkState [[("10:30:00", "Morning standup")]; [("09:15:00", "Code review")]]
    [("2024-01-15", 0%nat); ("2024-01-16", 1%nat)] (Some 1%nat) []
    (mkView false false [] []).

Section Outcomes.

Variable localeCompare : string -> string -> Z.

(** The state in which [saveState] leaves [s]: one more write, a fresh
    render. *)
Definition savedState (s : State) (cl : loc) : State :=
  let cur := deref (heap s) cl in
  mkState (heap s) (logs s) (currentLog s)
    (storageWrites s ++ [mkStored (collection s) (currentDay s)])%list
    (mkView (negb (0 <? length (objKeys cur))%nat)
            (negb (0 <? length (objKeys (logs s)))%nat)
            (renderToday localeCompare cur)
            (renderAll localeCompare (heap s) (logs s))).

(** The state a [logEntry] through [cl] ends in. *)
Definition entryState (d : Clock) (newLog : string) (s : State) (cl : loc)
  : State :=
  savedState
    (mkState (heapAfterEntry (heap s) cl (currentTimeOf d) newLog)
       (logs s) (Some cl) (storageWrites s) (view s)) cl.

End Outcomes.

(* ===================================================================== *)
(** * The rest of the page: navigation and the listeners at work *)
(* ===================================================================== *)

(** The class lists of the two sections, as far as the script touches
    them: whether each one carries the class [hidden]. *)
Record Sections : Type := mkSections { todayHidden : bool; allHidden : bool }.

(** [showAllLogs]: [todaySection.classList.add("hidden")], then
    [allSection.classList.remove("hidden")]. *)
Definition showAllLogs (v : Sections) : Sections :=
  let v1 := mkSections true (allHidden v) in
  mkSections (todayHidden v1) false.

(** [showTodayLogs]: [allSection.classList.add("hidden")], then
    [todaySection.classList.remove("hidden")]. *)
Definition showTodayLogs (v : Sections) : Sections :=
  let v1 := mkSections (todayHidden v) true in
  mkSections false (allHidden v1).

(** The page: the script's variables and lists, and the two sections. *)
Record Page : Type := mkPage { panel : State; sections : Sections }.

(** One call of a listener the script registered, with what the listener
    reads from its surroundings: the event, the text of the input box, the
    clock. *)
Inductive Call : Type :=
| CallKeydown (e : KeyEvent) (value : string) (d : Clock)
| CallAddLog (value : string) (d : Clock)
| CallShowLogs
| CallShowToday.

(** The two variants of the script. *)
Inductive Script : Type := PopupJs | Part000.

Section Listeners.

Variable localeCompare : string -> string -> Z.

(** A listener runs to its end or to an uncaught exception; either way the
    page goes on with the state the listener left. *)
Definition dispatch (c : Call) (p : Page) : Page :=
  match c with
  | CallKeydown e value d =>
      mkPage (fst (onKeydown localeCompare e value d (panel p))) (sections p)
  | CallAddLog value d =>
      mkPage (fst (onAddLogClick localeCompare value d (panel p))) (sections p)
  | CallShowLogs => mkPage (panel p) (showAllLogs (sections p))
  | CallShowToday => mkPage (panel p) (showTodayLogs (sections p))
  end.

(** The listener calls of a session, in order. *)
Definition runCalls (cs : list Call) (p : Page) : Page :=
  foldl (fun q c => dispatch c q) p cs.

(** The storage callback of the variant at hand. *)
Definition onStorageLoaded (v : Script) : option (obj DayLog) -> Clock -> M unit :=
  match v with
  | PopupJs => onStorageLoaded_popup localeCompare
  | Part000 => onStorageLoaded_part000 localeCompare
  end.

(** The page once the storage callback has run on what storage held. *)
Definition opened (v : Script) (r : option (obj DayLog)) (d : Clock) (p : Page)
  : Page :=
  mkPage (fst (onStorageLoaded v r d (panel p))) (sections p).

(** A session: the page is opened, then listeners are called. *)
Definition session (v : Script) (r : option (obj DayLog)) (d : Clock)
    (cs : list Call) (p : Page) : Page :=
  runCalls cs (opened v r d p).

End Listeners.

(** A page before the storage callback, showing the today section. *)
Definition samplePage : Page := mkPage initialState (mkSections false true).

(** A short session: an entry by click, a look at the history, an entry
    by the Enter key. *)
Definition sampleCalls : list Call :=
  [CallAddLog " Wrote design doc " nextMorning;
   CallShowLogs;
   CallKeydown (mkKeyEvent "Enter" false) "Reviewed it" sameSecond].

(** Whether a call is one of the two navigation clicks. *)
Definition isNavigation (c : Call) : bool :=
  match c with
  | CallShowLogs | CallShowToday => true
  | _ => false
  end.

(** The most recent [chrome.storage.local.set]. *)
Definition lastWrite (s : State) : option Stored := last (storageWrites s).

(** No entry of the store has the empty string as its text. *)
Definition textsNonEmpty (s : State) : bool :=
  forallb (fun o : DayLog => forallb (fun e => truthy (snd e)) o) (heap s).

(** The key [(day, time)] has an entry in the collection. *)
Definition hasEntry (c : obj DayLog) (k t : string) : Prop :=
  exists day, objGet c k = Some day /\ is_Some (objGet day t).

(** Seconds into the day of a time value. *)
Definition secondOfDay (t : Z) : Z :=
  HourFromTime t * 3600 + MinFromTime t * 60 + SecFromTime t.

(* ===================================================================== *)
(** * Facts about the host model *)
(* ===================================================================== *)

Example toISOString_epoch :
  toISOString (mkClock 0 0) = "1970-01-01T00:00:00.000Z".
Proof. reflexivity. Qed.

Example toISOString_2024 :
  toISOString (mkClock 1705350600123 19800000) = "2024-01-15T20:30:00.123Z".
Proof. reflexivity. Qed.

Example toTimeString_2024 :
  toTimeString (mkClock 1705350600123 19800000) = "02:00:00 GMT+0530".
Proof. reflexivity. Qed.

Example toISOString_leap_day :
  toISOString (mkClock 951782400000 0) = "2000-02-29T00:00:00.000Z".
Proof. reflexivity. Qed.

Example toISOString_century_not_leap :
  toISOString (mkClock 4107542400000 0) = "2100-03-01T00:00:00.000Z".
Proof. reflexivity. Qed.

Example toISOString_year_one :
  toISOString (mkClock (-62135596800000) 0) = "0001-01-01T00:00:00.000Z".
Proof. reflexivity. Qed.

Example toISOString_last_four_digit_year :
  toISOString (mkClock 253402300799000 0) = "9999-12-31T23:59:59.000Z".
Proof. reflexivity. Qed.

Example toISOString_expanded_year :
  toISOString (mkClock 253402300800000 0) = "+010000-01-01T00:00:00.000Z".
Proof. reflexivity. Qed.

Example toTimeString_west_of_greenwich :
  toTimeString (mkClock 1709210096000 (-18000000)) = "07:34:56 GMT-0500".
Proof. reflexivity. Qed.

Example toISOString_before_epoch :
  toISOString (mkClock (-1) 0) = "1969-12-31T23:59:59.999Z".
Proof. reflexivity. Qed.

Example trim_example : trim "  a b
 " = "a b".
Proof. reflexivity. Qed.

Section ObjectFacts.

Context {V : Type}.
Implicit Types (o : obj V) (k : string) (v : V).

Lemma objGet_objSet_eq o k v : objGet (objSet o k v) k = Some v.
Proof.
  induction o as [|[k' v'] o IH]; cbn.
  - now rewrite String.eqb_refl.
  - destruct (String.eqb k' k) eqn:E; cbn; rewrite E; [reflexivity | exact IH].
Qed.

Lemma objGet_objSet_ne o k k' v :
  k <> k' -> objGet (objSet o k v) k' = objGet o k'.
Proof.
  intros Hne. induction o as [|[k0 v0] o IH]; cbn.
  - apply String.eqb_neq in Hne. now rewrite Hne.
  - destruct (String.eqb k0 k) eqn:E; cbn.
    + apply String.eqb_eq in E. subst k0.
      apply String.eqb_neq in Hne. now rewrite Hne.
    + now rewrite IH.
Qed.

(** Assigning to an existing property leaves the key list alone; assigning
    to a missing one appends the key. *)
Lemma objKeys_objSet o k v :
  objKeys (objSet o k v) =
    if existsb (String.eqb k) (objKeys o) then objKeys o
    else (objKeys o ++ [k])%list.
Proof.
  induction o as [|[k' v'] o IH]; cbn; [reflexivity|].
  rewrite (String.eqb_sym k k').
  destruct (String.eqb k' k) eqn:E; cbn; [reflexivity|].
  unfold objKeys in IH. rewrite IH.
  now destruct (existsb (String.eqb k) (map fst o)).
Qed.

Lemma noDupKeys_snoc (ks : list string) k :
  noDupKeys ks = true -> existsb (String.eqb k) ks = false ->
  noDupKeys (ks ++ [k])%list = true.
Proof.
  induction ks as [|k0 ks IH]; cbn; [reflexivity|].
  intros Hnd Hk.
  apply andb_prop in Hnd as [Hk0 Hnd].
  apply orb_false_elim in Hk as [Hne Hk].
  rewrite existsb_app; cbn.
  rewrite (String.eqb_sym k0 k), Hne; cbn.
  apply negb_true_iff in Hk0. rewrite Hk0; cbn.
  now apply IH.
Qed.

Lemma objWf_objSet o k v : objWf o = true -> objWf (objSet o k v) = true.
Proof.
  unfold objWf. intros Hwf. rewrite objKeys_objSet.
  destruct (existsb (String.eqb k) (objKeys o)) eqn:E; [exact Hwf|].
  now apply noDupKeys_snoc.
Qed.

Lemma propsNamed_absent o k :
  existsb (String.eqb k) (objKeys o) = false -> propsNamed o k = [].
Proof.
  induction o as [|[k' v'] o IH]; cbn; [reflexivity|].
  intros H. apply orb_false_elim in H as [Hne H].
  rewrite String.eqb_sym, Hne. now apply IH.
Qed.

(** In a well-formed object the property just assigned occurs once, with
    the assigned value. *)
Lemma propsNamed_objSet o k v :
  objWf o = true -> propsNamed (objSet o k v) k = [(k, v)].
Proof.
  unfold objWf. induction o as [|[k' v'] o IH]; cbn; intros Hwf.
  - now rewrite String.eqb_refl.
  - apply andb_prop in Hwf as [Hk' Hwf]. apply negb_true_iff in Hk'.
    destruct (String.eqb k' k) eqn:E; cbn; rewrite E.
    + apply String.eqb_eq in E. subst k'.
      f_equal. now apply propsNamed_absent.
    + now apply IH.
Qed.

End ObjectFacts.

(* ===================================================================== *)
(** * Running the script *)
(* ===================================================================== *)

Lemma deref_insert_eq (h : list DayLog) (l : loc) (o : DayLog) :
  (l < length h)%nat -> deref (<[l := o]> h) l = o.
Proof. intros Hl. unfold deref. now rewrite list_lookup_insert_eq. Qed.

Lemma deref_insert_ne (h : list DayLog) (l l' : loc) (o : DayLog) :
  l <> l' -> deref (<[l := o]> h) l' = deref h l'.
Proof. intros Hl. unfold deref. now rewrite list_lookup_insert_ne. Qed.

Lemma heapAfterEntry_length h cl t newLog :
  length (heapAfterEntry h cl t newLog) = length h.
Proof.
  unfold heapAfterEntry.
  destruct (negb (truthyOpt (objGet (deref h cl) t)));
    now rewrite ?length_insert.
Qed.

Lemma heapAfterEntry_current h cl t newLog :
  (cl < length h)%nat ->
  deref (heapAfterEntry h cl t newLog) cl = dayAfterEntry (deref h cl) t newLog.
Proof.
  intros Hcl. unfold heapAfterEntry, dayAfterEntry.
  destruct (negb (truthyOpt (objGet (deref h cl) t))).
  - rewrite deref_insert_eq by now rewrite length_insert.
    now rewrite deref_insert_eq.
  - now rewrite deref_insert_eq.
Qed.

Lemma heapAfterEntry_other h cl t newLog l :
  l <> cl -> deref (heapAfterEntry h cl t newLog) l = deref h l.
Proof.
  intros Hl. unfold heapAfterEntry.
  destruct (negb (truthyOpt (objGet (deref h cl) t)));
    now rewrite ?deref_insert_ne by congruence.
Qed.

Lemma dayAfterEntry_get o t newLog :
  objGet (dayAfterEntry o t newLog) t = Some newLog.
Proof. apply objGet_objSet_eq. Qed.

Lemma dayAfterEntry_get_other o t t' newLog :
  t <> t' -> objGet (dayAfterEntry o t newLog) t' = objGet o t'.
Proof.
  intros Ht. unfold dayAfterEntry. rewrite objGet_objSet_ne by exact Ht.
  destruct (negb (truthyOpt (objGet o t))); [|reflexivity].
  now apply objGet_objSet_ne.
Qed.

Lemma dayAfterEntry_wf o t newLog :
  objWf o = true -> objWf (dayAfterEntry o t newLog) = true.
Proof.
  intros Hwf. unfold dayAfterEntry. apply objWf_objSet.
  destruct (negb (truthyOpt (objGet o t))); [now apply objWf_objSet | exact Hwf].
Qed.

Lemma dayAfterEntry_once o t newLog :
  objWf o = true -> propsNamed (dayAfterEntry o t newLog) t = [(t, newLog)].
Proof.
  intros Hwf. unfold dayAfterEntry. apply propsNamed_objSet.
  destruct (negb (truthyOpt (objGet o t))); [now apply objWf_objSet | exact Hwf].
Qed.

Section Runs.

Variable localeCompare : string -> string -> Z.

Lemma saveState_run s cl :
  currentLog s = Some cl ->
  saveState localeCompare s = (savedState localeCompare s cl, Some tt).
Proof.
  intros Hcl. unfold saveState, updateUIState, storageSet, bind,
    currentLogObject, readObject, getLogs, setView, savedState.
  cbn. now rewrite Hcl.
Qed.

Lemma saveState_null s :
  currentLog s = None -> snd (saveState localeCompare s) = None.
Proof.
  intros Hcl. unfold saveState, updateUIState, storageSet, bind,
    currentLogObject. cbn. now rewrite Hcl.
Qed.

(** [logEntry] on an initialised panel: the entry is written through
    [currentLog], then the state is saved. *)
Lemma logEntry_run d newLog s cl :
  currentLog s = Some cl ->
  logEntry localeCompare d newLog s =
    (savedState localeCompare
       (mkState (heapAfterEntry (heap s) cl (currentTimeOf d) newLog)
          (logs s) (Some cl) (storageWrites s) (view s)) cl,
     Some tt).
Proof.
  intros Hcl.
  unfold logEntry, bind, currentLogObject, readProp, writeProp, ret.
  rewrite Hcl. cbv beta iota. unfold heapAfterEntry.
  destruct (negb (truthyOpt (objGet (deref (heap s) cl) (currentTimeOf d))));
    cbv beta iota; cbn [heap logs currentLog storageWrites view];
    rewrite ?Hcl; now apply saveState_run.
Qed.

(** Before the storage callback has run [currentLog] is [null] and
    [logEntry] throws without touching anything. *)
Lemma logEntry_null d newLog s :
  currentLog s = None -> logEntry localeCompare d newLog s = (s, None).
Proof.
  intros Hcl. unfold logEntry, bind, currentLogObject. now rewrite Hcl.
Qed.

End Runs.

(** ** The storage callback *)

Lemma fromStorage_run p s :
  fromStorage p s =
    (mkState (heap s ++ map snd p)%list (logs s) (currentLog s)
       (storageWrites s) (view s),
     Some (locate (length (heap s)) p)).
Proof.
  revert s. induction p as [|[k d] p IH]; intros s; cbn.
  - unfold ret. rewrite app_nil_r. now destruct s.
  - unfold bind, newObject, ret. rewrite IH. cbn.
    rewrite <- app_assoc, length_app. cbn.
    now rewrite Nat.add_1_r.
Qed.

Lemma loadLogs_run r s :
  loadLogs r s =
    (mkState (heap s ++ map snd (daysOf r))%list (logs s) (currentLog s)
       (storageWrites s) (view s),
     Some (locate (length (heap s)) (daysOf r))).
Proof.
  unfold loadLogs. destruct r as [p|]; cbn.
  - apply fromStorage_run.
  - unfold ret. rewrite app_nil_r. now destruct s.
Qed.

Section InitRuns.

Variable localeCompare : string -> string -> Z.

Lemma onStorageLoaded_part000_run r d s0 :
  onStorageLoaded_part000 localeCompare r d s0 =
    let s := loadedState r s0 in
    match objGet (logs s) (todayKeyOf d) with
    | Some c =>
        (savedState localeCompare
           (mkState (heap s) (logs s) (Some c) (storageWrites s) (view s)) c,
         Some tt)
    | None =>
        let o := length (heap s) in
        (savedState localeCompare
           (mkState (heap s ++ [[]])%list (objSet (logs s) (todayKeyOf d) o)
              (Some o) (storageWrites s) (view s)) o,
         Some tt)
    end.
Proof.
  unfold onStorageLoaded_part000, bind at 1. rewrite loadLogs_run.
  unfold bind, setLogs, getLogs, newObject, setCurrentLog, ret, loadedState.
  cbn [heap logs currentLog storageWrites view].
  destruct (objGet (locate (length (heap s0)) (daysOf r)) (todayKeyOf d))
    as [c|] eqn:E; cbn [heap logs currentLog storageWrites view].
  - rewrite E. now apply saveState_run.
  - rewrite objGet_objSet_eq. now apply saveState_run.
Qed.

Lemma onStorageLoaded_popup_run r d s0 :
  onStorageLoaded_popup localeCompare r d s0 =
    let s := loadedState r s0 in
    let o := length (heap s) in
    if noLatestKey (logs s) then
      (savedState localeCompare
         (mkState (heap s ++ [[]])%list (objSet (logs s) (todayKeyOf d) o)
            (Some o) (storageWrites s) (view s)) o,
       Some tt)
    else
      match objGet (logs s) (todayKeyOf d) with
      | Some c =>
          (savedState localeCompare
             (mkState (heap s) (logs s) (Some c) (storageWrites s) (view s)) c,
           Some tt)
      | None =>
          (savedState localeCompare
             (mkState (heap s ++ [[]])%list (logs s)
                (Some o) (storageWrites s) (view s)) o,
           Some tt)
      end.
Proof.
  unfold onStorageLoaded_popup, bind at 1. rewrite loadLogs_run.
  unfold bind, setLogs, getLogs, newObject, setCurrentLog, ret, loadedState.
  cbn [heap logs currentLog storageWrites view].
  fold (noLatestKey (locate (length (heap s0)) (daysOf r))).
  destruct (noLatestKey (locate (length (heap s0)) (daysOf r)));
    cbn [heap logs currentLog storageWrites view].
  - rewrite objGet_objSet_eq. now apply saveState_run.
  - destruct (objGet (locate (length (heap s0)) (daysOf r)) (todayKeyOf d))
      as [c|] eqn:E; cbn [heap logs currentLog storageWrites view];
      now apply saveState_run.
Qed.

End InitRuns.

(* ===================================================================== *)
(** * The log state model *)
(* ===================================================================== *)

Lemma objGet_Some_In {V} (o : obj V) k v : objGet o k = Some v -> In (k, v) o.
Proof.
  induction o as [|[k' v'] o IH]; cbn; [discriminate|].
  destruct (String.eqb k' k) eqn:E.
  - apply String.eqb_eq in E. intros [= ->]. subst. now left.
  - intros H. right. now apply IH.
Qed.

Lemma objGet_map_values {V W} (f : V -> W) (o : obj V) k :
  objGet (map (fun kv => (fst kv, f (snd kv))) o) k = f <$> objGet o k.
Proof.
  induction o as [|[k' v'] o IH]; cbn; [reflexivity|].
  now destruct (String.eqb k' k).
Qed.

Lemma objGet_collection s k :
  objGet (collection s) k = deref (heap s) <$> objGet (logs s) k.
Proof. apply objGet_map_values. Qed.

Lemma objKeys_collection s : objKeys (collection s) = objKeys (logs s).
Proof.
  unfold collection, objKeys. rewrite map_map. now apply map_ext.
Qed.

Lemma dayAfterEntry_keeps o t newLog : keepsAllBut t o (dayAfterEntry o t newLog).
Proof.
  split.
  - intros t' Ht. apply dayAfterEntry_get_other. congruence.
  - intros t' Hsome. destruct (String.eqb t t') eqn:E.
    + apply String.eqb_eq in E. subst t'. rewrite dayAfterEntry_get. eauto.
    + apply String.eqb_neq in E. now rewrite dayAfterEntry_get_other.
Qed.

Lemma keepsAllBut_refl t o : keepsAllBut t o o.
Proof. now split. Qed.

Lemma trim_valueOrEmpty value : valueOrEmpty value = value.
Proof. now destruct value. Qed.

Section Model.

Variable localeCompare : string -> string -> Z.

Lemma onAddLogClick_submits value d :
  truthy (trim value) = true ->
  onAddLogClick localeCompare value d = logEntry localeCompare d (trim value).
Proof.
  intros H. unfold onAddLogClick. now rewrite trim_valueOrEmpty, H.
Qed.

Lemma onKeydown_submits value d :
  truthy (trim value) = true ->
  onKeydown localeCompare (mkKeyEvent "Enter" false) value d
  = logEntry localeCompare d (trim value).
Proof.
  intros H. unfold onKeydown. cbn. now rewrite trim_valueOrEmpty, H.
Qed.

Lemma entryState_current d newLog s cl :
  (cl < length (heap s))%nat ->
  currentDay (entryState localeCompare d newLog s cl)
  = Some (dayAfterEntry (deref (heap s) cl) (currentTimeOf d) newLog).
Proof.
  intros Hcl. unfold entryState, savedState, currentDay. cbn.
  now rewrite heapAfterEntry_current.
Qed.

Lemma panelInv_logEntry tk d newLog s cl :
  currentLog s = Some cl ->
  panelInv tk (entryState localeCompare d newLog s cl) = panelInv tk s.
Proof.
  intros Hcl. unfold panelInv, entryState, savedState. cbn.
  now rewrite Hcl, heapAfterEntry_length.
Qed.

End Model.

Section LogModel.

Variable localeCompare : string -> string -> Z.

(** C3 -- no data loss on first run.  With nothing in storage, running the
    storage callback (of either variant) and then [logEntry] with any text
    leaves a collection whose entry for the session's day key holds that
    text under the time key of the call. *)
Theorem first_run_entry_is_kept (d0 d1 : Clock) (text : string) (s0 : State) :
  (exists s2 day,
      (onStorageLoaded_popup localeCompare None d0 ;;
       logEntry localeCompare d1 text) s0 = (s2, Some tt)
      /\ objGet (collection s2) (todayKeyOf d0) = Some day
      /\ objGet day (currentTimeOf d1) = Some text)
  /\
  (exists s2 day,
      (onStorageLoaded_part000 localeCompare None d0 ;;
       logEntry localeCompare d1 text) s0 = (s2, Some tt)
      /\ objGet (collection s2) (todayKeyOf d0) = Some day
      /\ objGet day (currentTimeOf d1) = Some text).
Proof.
  assert (Hnew : forall h : list DayLog,
             (length (h ++ []) < length ((h ++ []) ++ [[]]))%nat).
  { intros h. rewrite !length_app. cbn. lia. }
  split.
  - unfold bind. rewrite onStorageLoaded_popup_run.
    cbn [loadedState daysOf locate map logs heap noLatestKey objKeys
         arraySort foldr atLast last truthyOpt negb storageWrites view].
    set (o := length (heap s0 ++ [])).
    unfold savedState at 1. cbv zeta.
    cbn [heap logs currentLog storageWrites view].
    erewrite logEntry_run by reflexivity.
    eexists _, _. split; [reflexivity|].
    unfold savedState, collection. cbn. rewrite String.eqb_refl.
    split; [reflexivity|].
    rewrite heapAfterEntry_current by apply Hnew.
    apply dayAfterEntry_get.
  - unfold bind. rewrite onStorageLoaded_part000_run.
    cbn [loadedState daysOf locate map logs heap objGet
         storageWrites view].
    set (o := length (heap s0 ++ [])).
    unfold savedState at 1. cbv zeta.
    cbn [heap logs currentLog storageWrites view].
    erewrite logEntry_run by reflexivity.
    eexists _, _. split; [reflexivity|].
    unfold savedState, collection. cbn. rewrite String.eqb_refl.
    split; [reflexivity|].
    rewrite heapAfterEntry_current by apply Hnew.
    apply dayAfterEntry_get.
Qed.

(** C5 -- collision policy.  Two [logEntry] calls whose clocks give the
    same time key leave exactly one entry under that key in the
    current-day log, and its text is that of the second call. *)
Theorem same_second_last_write_wins
    (d1 d2 : Clock) (a b : string) (s : State) (cl : loc)
    (Hcur : currentLog s = Some cl)
    (Hlive : (cl < length (heap s))%nat)
    (Hwf : objWf (deref (heap s) cl) = true)
    (Hsame : currentTimeOf d1 = currentTimeOf d2) :
  exists s2 day,
    (logEntry localeCompare d1 a ;; logEntry localeCompare d2 b) s
      = (s2, Some tt)
    /\ currentDay s2 = Some day
    /\ propsNamed day (currentTimeOf d2) = [(currentTimeOf d2, b)]
    /\ objGet day (currentTimeOf d2) = Some b.
Proof.
  unfold bind. rewrite (logEntry_run _ d1 a s cl Hcur).
  fold (entryState localeCompare d1 a s cl).
  set (s1 := entryState localeCompare d1 a s cl).
  assert (Hcur1 : currentLog s1 = Some cl) by reflexivity.
  assert (Hlive1 : (cl < length (heap s1))%nat).
  { unfold s1, entryState, savedState. cbn. now rewrite heapAfterEntry_length. }
  assert (Hday1 : deref (heap s1) cl
                  = dayAfterEntry (deref (heap s) cl) (currentTimeOf d1) a).
  { unfold s1, entryState, savedState. cbn. now apply heapAfterEntry_current. }
  rewrite (logEntry_run _ d2 b s1 cl Hcur1).
  fold (entryState localeCompare d2 b s1 cl).
  eexists _, _. split; [reflexivity|].
  split; [now apply entryState_current|].
  split.
  - apply dayAfterEntry_once. rewrite Hday1. now apply dayAfterEntry_wf.
  - apply dayAfterEntry_get.
Qed.

(** C6 -- trim and reject.  When the text of the input box trims to the
    empty string, both submit handlers return without changing anything:
    the collection, the current-day log and the list of storage writes are
    those of the state before. *)
Theorem blank_submission_is_noop
    (value : string) (e : KeyEvent) (d : Clock) (s : State)
    (Hblank : trim value = "") :
  onAddLogClick localeCompare value d s = (s, Some tt)
  /\ onKeydown localeCompare e value d s = (s, Some tt).
Proof.
  unfold onAddLogClick, onKeydown.
  rewrite trim_valueOrEmpty, Hblank. cbn.
  split; [reflexivity|].
  now destruct (String.eqb (key e) "Enter" && negb (shiftKey e)).
Qed.

(** C8 -- persistence.  A [logEntry] on an initialised panel issues exactly
    one more storage write, and that write carries the whole collection
    under [logs] and the current-day log under [currentLog], both as they
    are after the entry was stored.  The submit handlers reach [logEntry]
    whenever the trimmed text is not empty. *)
Theorem entry_is_flushed_whole
    (d : Clock) (newLog : string) (s : State) (cl : loc)
    (Hcur : currentLog s = Some cl) :
  (exists s',
      logEntry localeCompare d newLog s = (s', Some tt)
      /\ storageWrites s'
         = (storageWrites s ++ [mkStored (collection s') (currentDay s')])%list)
  /\ (forall value, truthy (trim value) = true ->
        onAddLogClick localeCompare value d = logEntry localeCompare d (trim value)
        /\ onKeydown localeCompare (mkKeyEvent "Enter" false) value d
           = logEntry localeCompare d (trim value)).
Proof.
  split.
  - rewrite (logEntry_run _ d newLog s cl Hcur).
    eexists. split; reflexivity.
  - intros value Hv. split.
    + now apply onAddLogClick_submits.
    + now apply onKeydown_submits.
Qed.

(** C9 -- frame.  In a session with day key [tk], a [logEntry] keeps the
    keys of the collection, keeps every day other than [tk] as it was, and
    in every day and in the current-day log keeps every entry and the text
    at every time key other than the one it writes. *)
Theorem logEntry_touches_one_binding
    (tk : string) (d : Clock) (newLog : string) (s : State)
    (Hinv : panelInv tk s = true) :
  exists s',
    logEntry localeCompare d newLog s = (s', Some tt)
    /\ objKeys (collection s') = objKeys (collection s)
    /\ (forall k day,
          objGet (collection s) k = Some day ->
          exists day',
            objGet (collection s') k = Some day'
            /\ keepsAllBut (currentTimeOf d) day day'
            /\ (k <> tk -> day' = day))
    /\ (exists cur cur',
          currentDay s = Some cur /\ currentDay s' = Some cur'
          /\ keepsAllBut (currentTimeOf d) cur cur').
Proof.
  unfold panelInv in Hinv.
  destruct (currentLog s) as [cl|] eqn:Hcur; [|discriminate].
  apply andb_prop in Hinv as [Hlive Hothers].
  apply Nat.ltb_lt in Hlive.
  rewrite (logEntry_run _ d newLog s cl Hcur).
  fold (entryState localeCompare d newLog s cl).
  eexists. split; [reflexivity|].
  split; [now rewrite !objKeys_collection|].
  split.
  - intros k day Hday. rewrite objGet_collection in Hday.
    rewrite objGet_collection.
    change (logs (entryState localeCompare d newLog s cl)) with (logs s).
    destruct (objGet (logs s) k) as [l|] eqn:Hl; [|discriminate].
    cbn in Hday. injection Hday as <-. cbn.
    eexists. split; [reflexivity|].
    change (heap (entryState localeCompare d newLog s cl))
      with (heapAfterEntry (heap s) cl (currentTimeOf d) newLog).
    destruct (Nat.eq_dec l cl) as [->|Hne].
    + rewrite heapAfterEntry_current by exact Hlive.
      split; [apply dayAfterEntry_keeps|].
      intros Hk. apply objGet_Some_In in Hl.
      rewrite forallb_forall in Hothers. specialize (Hothers _ Hl).
      cbn in Hothers. apply String.eqb_neq in Hk.
      rewrite Hk, Nat.eqb_refl in Hothers. discriminate.
    + rewrite heapAfterEntry_other by exact Hne.
      split; [apply keepsAllBut_refl | reflexivity].
  - eexists _, _. split; [unfold currentDay; now rewrite Hcur|].
    split; [now apply entryState_current|].
    apply dayAfterEntry_keeps.
Qed.

End LogModel.

(* ===================================================================== *)
(** * Rendering order *)
(* ===================================================================== *)

Section SortFacts.

Context {A : Type}.
Implicit Types (cmp : A -> A -> Z) (l : list A).

Lemma sortInsert_perm cmp x l : Permutation (sortInsert cmp x l) (x :: l).
Proof.
  induction l as [|y l IH]; cbn; [reflexivity|].
  destruct (cmp x y <=? 0); [reflexivity|].
  rewrite IH. apply perm_swap.
Qed.

Lemma arraySort_perm cmp l : Permutation (arraySort cmp l) l.
Proof.
  induction l as [|x l IH]; cbn; [reflexivity|].
  rewrite sortInsert_perm. now constructor.
Qed.

Lemma arraySort_In cmp l x : In x (arraySort cmp l) <-> In x l.
Proof.
  split; apply Permutation_in; [|symmetry]; apply arraySort_perm.
Qed.

(** Only the sign test of the comparator on the elements at hand
    matters. *)
Lemma sortInsert_ext cmp cmp' x l :
  (forall y, In y l -> (cmp x y <=? 0) = (cmp' x y <=? 0)) ->
  sortInsert cmp x l = sortInsert cmp' x l.
Proof.
  induction l as [|y l IH]; intros H; cbn; [reflexivity|].
  rewrite (H y) by now left.
  destruct (cmp' x y <=? 0); [reflexivity|].
  f_equal. apply IH. intros z Hz. apply H. now right.
Qed.

Lemma arraySort_ext cmp cmp' l :
  (forall x y, In x l -> In y l -> (cmp x y <=? 0) = (cmp' x y <=? 0)) ->
  arraySort cmp l = arraySort cmp' l.
Proof.
  induction l as [|x l IH]; intros H; cbn; [reflexivity|].
  fold (arraySort cmp l). fold (arraySort cmp' l).
  rewrite IH by (intros; apply H; now right).
  apply sortInsert_ext. intros y Hy. apply H; [now left|].
  right. now apply (arraySort_In cmp').
Qed.

Lemma sortInsert_sorted cmp x l :
  (forall a b, (cmp a b <=? 0) = false -> (cmp b a <=? 0) = true) ->
  Sorted (fun a b => (cmp a b <=? 0) = true) l ->
  Sorted (fun a b => (cmp a b <=? 0) = true) (sortInsert cmp x l).
Proof.
  intros Htot Hs. induction Hs as [|y l Hs IH Hhd]; cbn.
  - repeat constructor.
  - destruct (cmp x y <=? 0) eqn:E.
    + constructor; [now constructor | now constructor].
    + constructor; [exact IH|].
      destruct l as [|z l]; cbn.
      * constructor. now apply Htot.
      * inversion Hhd; subst.
        destruct (cmp x z <=? 0); constructor; [now apply Htot | assumption].
Qed.

Lemma arraySort_sorted cmp l :
  (forall a b, (cmp a b <=? 0) = false -> (cmp b a <=? 0) = true) ->
  Sorted (fun a b => (cmp a b <=? 0) = true) (arraySort cmp l).
Proof.
  intros Htot. induction l as [|x l IH]; cbn; [constructor|].
  now apply sortInsert_sorted.
Qed.

End SortFacts.

Lemma codeUnitCompare_nonpos a b :
  (codeUnitCompare a b <=? 0) = String.leb a b.
Proof. unfold codeUnitCompare, String.leb. now destruct (String.compare a b). Qed.

Lemma codeUnitCompare_total a b :
  (codeUnitCompare a b <=? 0) = false -> (codeUnitCompare b a <=? 0) = true.
Proof.
  rewrite !codeUnitCompare_nonpos. intros H.
  destruct (String.leb_total a b) as [H'|H']; congruence.
Qed.

Lemma codeUnitCompare_sgn a b : Z.sgn (codeUnitCompare a b) = codeUnitCompare a b.
Proof. unfold codeUnitCompare. now destruct (String.compare a b). Qed.

Lemma codeUnitCompare_collates shape : collatesByCodeUnit shape codeUnitCompare.
Proof. intros a b _ _. apply codeUnitCompare_sgn. Qed.

Lemma sgn_nonpos_test (x y : Z) : Z.sgn x = y -> (x <=? 0) = (y <=? 0).
Proof.
  intros <-. destruct x; reflexivity.
Qed.

Lemma Sorted_map_fst {V} (R : string -> string -> Prop) (l : list (string * V)) :
  Sorted (fun a b => R (fst a) (fst b)) l -> Sorted R (map fst l).
Proof.
  induction 1 as [|x l Hs IH Hhd]; cbn; constructor; [exact IH|].
  destruct Hhd; cbn; now constructor.
Qed.

(** Entries whose keys have one shape come out of the script's [sort]
    exactly as a sort by code units would leave them, newest first. *)
Lemma sort_shaped {V} (shape : string -> bool) lc (o : obj V) :
  collatesByCodeUnit shape lc ->
  forallb shape (objKeys o) = true ->
  arraySort (newestFirst lc) o = arraySort (newestFirst codeUnitCompare) o.
Proof.
  intros Hlc Hshape. apply arraySort_ext. intros x y Hx Hy.
  unfold newestFirst. apply sgn_nonpos_test, Hlc.
  - rewrite forallb_forall in Hshape. apply Hshape.
    unfold objKeys. now apply in_map.
  - rewrite forallb_forall in Hshape. apply Hshape.
    unfold objKeys. now apply in_map.
Qed.

Lemma sort_codeUnit_newest_first {V} (o : obj V) :
  newestFirstOrder (map fst (arraySort (newestFirst codeUnitCompare) o)).
Proof.
  apply Sorted_map_fst.
  pose proof (arraySort_sorted (newestFirst (V:=V) codeUnitCompare) o) as H.
  eapply Sorted_ind with (P := fun l => Sorted _ l) in H.
  - exact H.
  - constructor.
  - intros a l _ IH Hhd. constructor; [exact IH|].
    destruct Hhd as [|b l Hab]; constructor.
    unfold newestFirst in Hab. now rewrite codeUnitCompare_nonpos in Hab.
  - intros a b. unfold newestFirst. apply codeUnitCompare_total.
Qed.

Lemma deref_shaped (h : list DayLog) (l : loc) :
  forallb (fun o : DayLog => forallb isTimeKey (objKeys o)) h = true ->
  forallb isTimeKey (objKeys (deref h l)) = true.
Proof.
  intros H. unfold deref. destruct (h !! l) as [o|] eqn:E; cbn; [|reflexivity].
  rewrite forallb_forall in H. apply H.
  apply list_elem_of_In, list_elem_of_lookup. eauto.
Qed.

Section RenderFacts.

Variable localeCompare : string -> string -> Z.

Lemma renderToday_sort cur :
  renderToday localeCompare cur = arraySort (newestFirst localeCompare) cur.
Proof. now destruct cur. Qed.

Lemma renderAll_sort h lg :
  renderAll localeCompare h lg =
    map (fun kv => (fst kv,
                    arraySort (newestFirst localeCompare) (deref h (snd kv))))
        (arraySort (newestFirst localeCompare) lg).
Proof. now destruct lg. Qed.

Lemma updateUIState_run s cl :
  currentLog s = Some cl ->
  updateUIState localeCompare s =
    (mkState (heap s) (logs s) (currentLog s) (storageWrites s)
       (mkView (negb (0 <? length (objKeys (deref (heap s) cl)))%nat)
               (negb (0 <? length (objKeys (logs s)))%nat)
               (renderToday localeCompare (deref (heap s) cl))
               (renderAll localeCompare (heap s) (logs s))),
     Some tt).
Proof.
  intros Hcl. unfold updateUIState, bind, currentLogObject, readObject,
    getLogs, setView. rewrite Hcl. cbv beta iota. now rewrite Hcl.
Qed.

(** C7 -- sort order.  Provided the host collates keys of one shape by
    code units, a render of a state whose keys have the day-key and
    time-key shapes shows: in the today list, the entries of the
    current-day log, newest time key first; in the all-history list, the
    days of the collection, newest day key first, each with the entries of
    that day, newest time key first.  In particular entries at 09:00:00,
    14:20:00 and 08:15:00 are shown as 14:20:00, 09:00:00, 08:15:00, and
    day 2024-01-16 is shown before day 2024-01-15. *)
Theorem render_is_newest_first
    (Hday : collatesByCodeUnit isDayKey localeCompare)
    (Htime : collatesByCodeUnit isTimeKey localeCompare)
    (s : State) (cl : loc)
    (Hcur : currentLog s = Some cl)
    (Hkeys : keysShaped s = true) :
  (exists s',
      updateUIState localeCompare s = (s', Some tt)
      /\ Permutation (todayList (view s')) (deref (heap s) cl)
      /\ newestFirstOrder (map fst (todayList (view s')))
      /\ Permutation (map fst (allList (view s'))) (objKeys (logs s))
      /\ newestFirstOrder (map fst (allList (view s')))
      /\ Forall (fun item =>
                   newestFirstOrder (map fst (snd item))
                   /\ exists l, In (fst item, l) (logs s)
                                /\ Permutation (snd item) (deref (heap s) l))
                (allList (view s')))
  /\ (forall x y z : string,
        renderToday localeCompare
          [("09:00:00", x); ("14:20:00", y); ("08:15:00", z)]
        = [("14:20:00", y); ("09:00:00", x); ("08:15:00", z)])
  /\ (forall (h : list DayLog) (l1 l2 : loc),
        map fst (renderAll localeCompare h
                   [("2024-01-15", l1); ("2024-01-16", l2)])
        = ["2024-01-16"; "2024-01-15"]).
Proof.
  unfold keysShaped in Hkeys. apply andb_prop in Hkeys as [Hdays Htimes].
  split; [|split].
  - rewrite (updateUIState_run s cl Hcur). eexists. split; [reflexivity|].
    cbn [view todayList allList].
    rewrite renderToday_sort, renderAll_sort.
    rewrite (sort_shaped isTimeKey) by (auto using deref_shaped).
    rewrite (sort_shaped isDayKey localeCompare (logs s)) by assumption.
    split; [apply arraySort_perm|].
    split; [apply sort_codeUnit_newest_first|].
    rewrite map_map. cbn [fst].
    split; [unfold objKeys; apply Permutation_map, arraySort_perm|].
    split; [apply sort_codeUnit_newest_first|].
    apply List.Forall_forall. intros item Hitem.
    apply in_map_iff in Hitem as [[k l] [<- Hkl]]. cbn [fst snd].
    apply arraySort_In in Hkl.
    rewrite (sort_shaped isTimeKey) by (auto using deref_shaped).
    split; [apply sort_codeUnit_newest_first|].
    exists l. split; [exact Hkl | apply arraySort_perm].
  - intros x y z. rewrite renderToday_sort.
    now rewrite (sort_shaped isTimeKey) by (assumption || reflexivity).
  - intros h l1 l2. rewrite renderAll_sort, map_map. cbn [fst].
    now rewrite (sort_shaped isDayKey) by (assumption || reflexivity).
Qed.

End RenderFacts.

(* ===================================================================== *)
(** * Keys built from the clock *)
(* ===================================================================== *)

Lemma isDigit_digitChar n : isDigit (digitChar n) = true.
Proof.
  unfold digitChar.
  assert (H : 0 <= n mod 10 < 10) by (apply Z.mod_pos_bound; lia).
  assert (Hc : n mod 10 = 0 \/ n mod 10 = 1 \/ n mod 10 = 2 \/ n mod 10 = 3
               \/ n mod 10 = 4 \/ n mod 10 = 5 \/ n mod 10 = 6
               \/ n mod 10 = 7 \/ n mod 10 = 8 \/ n mod 10 = 9) by lia.
  repeat (destruct Hc as [Hc|Hc]; [rewrite Hc; reflexivity|]).
  rewrite Hc; reflexivity.
Qed.

Lemma padDigits_4 n :
  padDigits 4 n =
    String (digitChar (n / 10 / 10 / 10)) (String (digitChar (n / 10 / 10))
      (String (digitChar (n / 10)) (String (digitChar n) ""))).
Proof. reflexivity. Qed.

Lemma hms_chars t :
  hms t =
    String (digitChar (HourFromTime t / 10)) (String (digitChar (HourFromTime t))
      (String ":" (String (digitChar (MinFromTime t / 10))
        (String (digitChar (MinFromTime t)) (String ":"
          (String (digitChar (SecFromTime t / 10))
            (String (digitChar (SecFromTime t)) ""))))))).
Proof. reflexivity. Qed.

(** The time key is the local time of day, and always has its shape. *)
Lemma currentTimeOf_hms d : currentTimeOf d = hms (LocalTime d).
Proof.
  unfold currentTimeOf, toTimeString. cbv zeta. rewrite hms_chars.
  reflexivity.
Qed.

Lemma currentTimeOf_shaped d : isTimeKey (currentTimeOf d) = true.
Proof.
  rewrite currentTimeOf_hms, hms_chars. cbn [isTimeKey].
  now rewrite !isDigit_digitChar.
Qed.

Lemma isoDate_chars t :
  0 <= YearFromTime t <= 9999 ->
  isoDate t =
    String (digitChar (YearFromTime t / 10 / 10 / 10))
      (String (digitChar (YearFromTime t / 10 / 10))
        (String (digitChar (YearFromTime t / 10))
          (String (digitChar (YearFromTime t))
            (String "-" (String (digitChar (MonthFromTime t / 10))
              (String (digitChar (MonthFromTime t))
                (String "-" (String (digitChar (DateFromTime t / 10))
                  (String (digitChar (DateFromTime t)) ""))))))))).
Proof.
  intros [Hlo Hhi]. unfold isoDate, isoYear.
  apply Z.leb_le in Hlo, Hhi. rewrite Hlo, Hhi. reflexivity.
Qed.

Lemma todayKeyOf_isoDate d :
  0 <= YearFromTime (timeValue d) <= 9999 ->
  todayKeyOf d = isoDate (timeValue d).
Proof.
  intros Hy. unfold todayKeyOf, toISOString.
  rewrite (isoDate_chars _ Hy). reflexivity.
Qed.

Lemma todayKeyOf_shaped d :
  0 <= YearFromTime (timeValue d) <= 9999 -> isDayKey (todayKeyOf d) = true.
Proof.
  intros Hy. rewrite (todayKeyOf_isoDate d Hy), (isoDate_chars _ Hy).
  cbn [isDayKey]. now rewrite !isDigit_digitChar.
Qed.

Lemma isoDate_same_day t t' : Day t = Day t' -> isoDate t = isoDate t'.
Proof.
  intros H. unfold isoDate, YearFromTime, MonthFromTime, DateFromTime.
  now rewrite H.
Qed.

(** C4, as the code has it.  For years 0 to 9999 the day key of a session
    is the UTC calendar date of the clock reading, written YYYY-MM-DD; it
    is the local calendar date whenever local time and UTC fall on the same
    day. *)
Theorem day_key_is_utc_date (d : Clock)
    (Hyear : 0 <= YearFromTime (timeValue d) <= 9999) :
  todayKeyOf d =
    padDigits 4 (YearFromTime (timeValue d)) ++ "-"
    ++ padDigits 2 (MonthFromTime (timeValue d)) ++ "-"
    ++ padDigits 2 (DateFromTime (timeValue d))
  /\ isDayKey (todayKeyOf d) = true
  /\ (Day (LocalTime d) = Day (timeValue d) -> todayKeyOf d = localDateKey d).
Proof.
  rewrite (todayKeyOf_isoDate d Hyear).
  split; [|split].
  - now rewrite (isoDate_chars _ Hyear).
  - rewrite <- (todayKeyOf_isoDate d Hyear). now apply todayKeyOf_shaped.
  - intros Hsame. unfold localDateKey. now apply isoDate_same_day.
Qed.

(** C4, read with the local date, fails: at 20:30 UTC on 15 January 2024 in a
    zone five and a half hours ahead, the local date is the 16th and the
    day key is that of the 15th, while the time key is local (02:00:00). *)
Lemma day_key_is_not_local_date :
  todayKeyOf (mkClock 1705350600000 19800000) = "2024-01-15"
  /\ localDateKey (mkClock 1705350600000 19800000) = "2024-01-16"
  /\ currentTimeOf (mkClock 1705350600000 19800000) = "02:00:00"
  /\ todayKeyOf (mkClock 1705350600000 19800000)
     <> localDateKey (mkClock 1705350600000 19800000).
Proof. repeat split. vm_compute. discriminate. Qed.

(* ===================================================================== *)
(** * The storage callback and the current-day alias *)
(* ===================================================================== *)

Lemma locate_In_bound n p k l :
  In (k, l) (locate n p) -> (n <= l < n + length p)%nat.
Proof.
  revert n. induction p as [|[k0 d0] p IH]; intros n; cbn; [tauto|].
  intros [[= -> ->]|H]; [lia|]. apply IH in H. lia.
Qed.

(** [fromStorage] builds one object per day: no two days share one. *)
Lemma locate_In_key n p k k' l :
  In (k, l) (locate n p) -> In (k', l) (locate n p) -> k = k'.
Proof.
  revert n. induction p as [|[k0 d0] p IH]; intros n; cbn; [tauto|].
  intros [H|H] [H'|H'].
  - congruence.
  - injection H as _ <-. apply locate_In_bound in H'. lia.
  - injection H' as _ <-. apply locate_In_bound in H. lia.
  - now apply (IH (S n)).
Qed.

Lemma In_objSet {V} (o : obj V) k0 v0 k v :
  In (k, v) (objSet o k0 v0) -> In (k, v) o \/ (k = k0 /\ v = v0).
Proof.
  induction o as [|[k1 v1] o IH]; cbn.
  - intros [[= -> ->]|[]]. now right.
  - destruct (String.eqb k1 k0) eqn:E; cbn.
    + apply String.eqb_eq in E. subst k1.
      intros [[= -> ->]|H]; [now right | left; now right].
    + intros [H|H]; [left; now left|].
      apply IH in H as [H|H]; [left; now right | now right].
Qed.

Lemma loadedState_heap_length r s :
  length (heap (loadedState r s)) = (length (heap s) + length (daysOf r))%nat.
Proof. unfold loadedState. cbn. now rewrite length_app, length_map. Qed.

Lemma panelInv_alias tk r s0 c st v :
  objGet (logs (loadedState r s0)) tk = Some c ->
  panelInv tk (mkState (heap (loadedState r s0)) (logs (loadedState r s0))
                 (Some c) st v) = true.
Proof.
  intros Hc. unfold panelInv. cbn [currentLog heap logs].
  apply objGet_Some_In in Hc.
  apply andb_true_intro. split.
  - apply Nat.ltb_lt. rewrite loadedState_heap_length.
    apply locate_In_bound in Hc. lia.
  - apply forallb_forall. intros [k l] Hkl. cbn [fst snd].
    destruct (Nat.eqb_spec l c) as [->|Hne]; [|now rewrite orb_true_r].
    rewrite (locate_In_key _ _ _ _ _ Hkl Hc). now rewrite String.eqb_refl.
Qed.

Lemma panelInv_fresh tk r s0 lg st v :
  (forall k l, In (k, l) lg ->
     In (k, l) (logs (loadedState r s0))
     \/ (k = tk /\ l = length (heap (loadedState r s0)))) ->
  panelInv tk (mkState (heap (loadedState r s0) ++ [[]])%list lg
                 (Some (length (heap (loadedState r s0)))) st v) = true.
Proof.
  intros Hlg. unfold panelInv. cbn [currentLog heap logs].
  apply andb_true_intro. split.
  - apply Nat.ltb_lt. rewrite length_app. cbn. lia.
  - apply forallb_forall. intros [k l] Hkl. cbn [fst snd].
    destruct (Hlg _ _ Hkl) as [Hin|[-> _]]; [|now rewrite String.eqb_refl].
    apply locate_In_bound in Hin. rewrite loadedState_heap_length.
    destruct (Nat.eqb_spec l (length (heap s0) + length (daysOf r))) as [->|Hne];
      [lia | now rewrite orb_true_r].
Qed.

Lemma panelInv_savedState lc tk s cl :
  panelInv tk (savedState lc s cl) = panelInv tk s.
Proof. reflexivity. Qed.

Section Aliasing.

Variable localeCompare : string -> string -> Z.

(** The callback of [src/unnamed/part_000] always ends with [currentLog]
    and [logs[todayKey]] holding the same live object. *)
Lemma part000_current_day_is_aliased r d s0 :
  exists s1 cl,
    onStorageLoaded_part000 localeCompare r d s0 = (s1, Some tt)
    /\ currentLog s1 = Some cl
    /\ objGet (logs s1) (todayKeyOf d) = Some cl
    /\ (cl < length (heap s1))%nat.
Proof.
  rewrite onStorageLoaded_part000_run. cbv zeta.
  destruct (objGet (logs (loadedState r s0)) (todayKeyOf d)) as [c|] eqn:E.
  - eexists _, c. split; [reflexivity|]. cbn.
    split; [reflexivity|]. split; [exact E|].
    apply objGet_Some_In, locate_In_bound in E.
    rewrite length_app, length_map. lia.
  - eexists _, _. split; [reflexivity|]. cbn.
    split; [reflexivity|]. split; [apply objGet_objSet_eq|].
    rewrite !length_app. cbn. lia.
Qed.

(** Both callbacks establish the session invariant for their day key. *)
Lemma part000_establishes_inv r d s0 :
  panelInv (todayKeyOf d)
    (fst (onStorageLoaded_part000 localeCompare r d s0)) = true.
Proof.
  rewrite onStorageLoaded_part000_run. cbv zeta.
  destruct (objGet (logs (loadedState r s0)) (todayKeyOf d)) as [c|] eqn:E;
    cbn [fst]; rewrite panelInv_savedState.
  - now apply panelInv_alias.
  - apply panelInv_fresh. intros k l. apply In_objSet.
Qed.

Lemma popup_establishes_inv r d s0 :
  panelInv (todayKeyOf d)
    (fst (onStorageLoaded_popup localeCompare r d s0)) = true.
Proof.
  rewrite onStorageLoaded_popup_run. cbv zeta.
  destruct (noLatestKey (logs (loadedState r s0))).
  - cbn [fst]. rewrite panelInv_savedState.
    apply panelInv_fresh. intros k l. apply In_objSet.
  - destruct (objGet (logs (loadedState r s0)) (todayKeyOf d)) as [c|] eqn:E;
      cbn [fst]; rewrite panelInv_savedState.
    + now apply panelInv_alias.
    + apply panelInv_fresh. intros k l H. now left.
Qed.

(** [logEntry] keeps the session invariant. *)
Lemma logEntry_keeps_inv tk d newLog s :
  panelInv tk s = true ->
  panelInv tk (fst (logEntry localeCompare d newLog s)) = true.
Proof.
  intros Hinv. pose proof Hinv as Hinv'. unfold panelInv in Hinv'.
  destruct (currentLog s) as [cl|] eqn:Hcur; [|discriminate].
  rewrite (logEntry_run _ d newLog s cl Hcur). cbn [fst].
  fold (entryState localeCompare d newLog s cl).
  now rewrite panelInv_logEntry.
Qed.

(** C1 -- aliasing, on [src/popup.js].  Reading back a collection stored on
    an earlier day, the callback ends with [currentLog] holding an object
    that [logs[todayKey]] does not hold; an entry then recorded is in the
    current-day log and not in the collection. *)
Theorem popup_current_day_is_detached :
  exists s1 s2 cl,
    onStorageLoaded_popup localeCompare (Some storedYesterday) nextMorning
      initialState = (s1, Some tt)
    /\ currentLog s1 = Some cl
    /\ objGet (logs s1) (todayKeyOf nextMorning) <> Some cl
    /\ logEntry localeCompare nextMorning "a" s1 = (s2, Some tt)
    /\ currentDay s2 = Some [("15:43:20", "a")]
    /\ objGet (collection s2) (todayKeyOf nextMorning) = None.
Proof.
  eexists _, _, _. split; [vm_compute; reflexivity|].
  split; [reflexivity|]. split; [vm_compute; discriminate|].
  split; [vm_compute; reflexivity|]. split; reflexivity.
Qed.

(** C2 -- today's day log exists, on [src/popup.js].  Reading back a
    collection stored on an earlier day, the callback ends with no entry
    for today's key in the collection, and writes the collection back
    without it. *)
Theorem popup_leaves_today_absent :
  exists s1,
    onStorageLoaded_popup localeCompare (Some storedYesterday) nextMorning
      initialState = (s1, Some tt)
    /\ todayKeyOf nextMorning = "2024-01-16"
    /\ objGet (collection s1) (todayKeyOf nextMorning) = None
    /\ objKeys (collection s1) = ["2024-01-15"]
    /\ map storedLogs (storageWrites s1) = [storedYesterday].
Proof.
  eexists. split; [vm_compute; reflexivity|]. repeat split.
Qed.

(** C10 -- the two callbacks, on the same stored collection and clock.
    [src/unnamed/part_000] adds an empty day log for today and makes
    [currentLog] that object; [src/popup.js] adds nothing and makes
    [currentLog] an object the collection does not hold. *)
Theorem init_variants_disagree :
  exists s s',
    onStorageLoaded_popup localeCompare (Some storedYesterday) nextMorning
      initialState = (s, Some tt)
    /\ onStorageLoaded_part000 localeCompare (Some storedYesterday) nextMorning
         initialState = (s', Some tt)
    /\ collection s = storedYesterday
    /\ collection s' = (storedYesterday ++ [("2024-01-16", [])])%list
    /\ objGet (logs s) (todayKeyOf nextMorning) = None
    /\ objGet (logs s') (todayKeyOf nextMorning) = currentLog s'
    /\ collection s <> collection s'.
Proof.
  eexists _, _. split; [vm_compute; reflexivity|].
  split; [vm_compute; reflexivity|].
  repeat split. discriminate.
Qed.

End Aliasing.

(* ===================================================================== *)
(** * Key shapes are kept by the script *)
(* ===================================================================== *)

Lemma objKeys_locate n p : objKeys (locate n p) = objKeys p.
Proof.
  revert n. induction p as [|[k d] p IH]; intros n; cbn; [reflexivity|].
  f_equal. apply IH.
Qed.

Lemma objSet_shaped {V} (shape : string -> bool) (o : obj V) k v :
  forallb shape (objKeys o) = true -> shape k = true ->
  forallb shape (objKeys (objSet o k v)) = true.
Proof.
  intros Ho Hk. rewrite objKeys_objSet.
  destruct (existsb (String.eqb k) (objKeys o)); [exact Ho|].
  rewrite forallb_app, Ho. cbn. now rewrite Hk.
Qed.

Lemma forallb_insert {A} (P : A -> bool) (l : list A) (i : nat) (x : A) :
  forallb P l = true -> P x = true -> forallb P (<[i := x]> l) = true.
Proof.
  revert i. induction l as [|y l IH]; intros i Hl Hx; [reflexivity|].
  cbn in Hl. apply andb_prop in Hl as [Hy Hl].
  destruct i as [|i]; cbn.
  - now rewrite Hx, Hl.
  - rewrite Hy. now apply IH.
Qed.

Lemma heapAfterEntry_shaped h cl d newLog :
  forallb (fun o : DayLog => forallb isTimeKey (objKeys o)) h = true ->
  forallb (fun o : DayLog => forallb isTimeKey (objKeys o))
    (heapAfterEntry h cl (currentTimeOf d) newLog) = true.
Proof.
  intros Hh. unfold heapAfterEntry.
  assert (H1 : forallb (fun o : DayLog => forallb isTimeKey (objKeys o))
                 (if negb (truthyOpt (objGet (deref h cl) (currentTimeOf d)))
                  then <[cl := objSet (deref h cl) (currentTimeOf d) ""]> h
                  else h) = true).
  { destruct (negb (truthyOpt (objGet (deref h cl) (currentTimeOf d))));
      [|exact Hh].
    apply forallb_insert; [exact Hh|].
    apply objSet_shaped; [now apply deref_shaped | apply currentTimeOf_shaped]. }
  apply forallb_insert; [exact H1|].
  apply objSet_shaped; [now apply deref_shaped | apply currentTimeOf_shaped].
Qed.

Lemma loadedState_shaped r s0 :
  keysShaped s0 = true -> storedShaped (daysOf r) = true ->
  keysShaped (loadedState r s0) = true.
Proof.
  unfold keysShaped, storedShaped, loadedState. cbn [logs heap].
  intros H0 Hr. apply andb_prop in H0 as [_ Hh]. apply andb_prop in Hr as [Hd Ht].
  now rewrite objKeys_locate, Hd, forallb_app, Hh, Ht.
Qed.

Section Shapes.

Variable localeCompare : string -> string -> Z.

Lemma logEntry_keeps_shape d newLog s :
  keysShaped s = true ->
  keysShaped (fst (logEntry localeCompare d newLog s)) = true.
Proof.
  intros Hs. destruct (currentLog s) as [cl|] eqn:Hcur.
  - rewrite (logEntry_run _ d newLog s cl Hcur). cbn [fst].
    unfold keysShaped in *. cbn [savedState logs heap].
    apply andb_prop in Hs as [Hd Ht]. rewrite Hd. cbn.
    now apply heapAfterEntry_shaped.
  - now rewrite logEntry_null.
Qed.

Lemma part000_keeps_shape r d s0 :
  keysShaped s0 = true -> storedShaped (daysOf r) = true ->
  0 <= YearFromTime (timeValue d) <= 9999 ->
  keysShaped (fst (onStorageLoaded_part000 localeCompare r d s0)) = true.
Proof.
  intros H0 Hr Hy.
  pose proof (loadedState_shaped r s0 H0 Hr) as Hl.
  pose proof (todayKeyOf_shaped d Hy) as Htk.
  rewrite onStorageLoaded_part000_run. cbv zeta.
  unfold keysShaped in Hl. apply andb_prop in Hl as [Hd Ht].
  destruct (objGet (logs (loadedState r s0)) (todayKeyOf d)) as [c|];
    cbn [fst]; unfold keysShaped; cbn [savedState logs heap].
  - now rewrite Hd, Ht.
  - rewrite objSet_shaped by assumption. now rewrite forallb_app, Ht.
Qed.

Lemma popup_keeps_shape r d s0 :
  keysShaped s0 = true -> storedShaped (daysOf r) = true ->
  0 <= YearFromTime (timeValue d) <= 9999 ->
  keysShaped (fst (onStorageLoaded_popup localeCompare r d s0)) = true.
Proof.
  intros H0 Hr Hy.
  pose proof (loadedState_shaped r s0 H0 Hr) as Hl.
  pose proof (todayKeyOf_shaped d Hy) as Htk.
  rewrite onStorageLoaded_popup_run. cbv zeta.
  unfold keysShaped in Hl. apply andb_prop in Hl as [Hd Ht].
  destruct (noLatestKey (logs (loadedState r s0)));
    [|destruct (objGet (logs (loadedState r s0)) (todayKeyOf d)) as [c|]];
    cbn [fst]; unfold keysShaped; cbn [savedState logs heap].
  - rewrite objSet_shaped by assumption. now rewrite forallb_app, Ht.
  - now rewrite Hd, Ht.
  - now rewrite Hd, forallb_app, Ht.
Qed.

End Shapes.

(** A string of white space only trims to the empty string. *)
Lemma trimStart_blank s :
  forallb isWhiteSpace (list_ascii_of_string s) = true -> trimStart s = "".
Proof.
  induction s as [|c s IH]; cbn; [reflexivity|].
  intros H. apply andb_prop in H as [Hc Hs]. rewrite Hc. now apply IH.
Qed.

Lemma trim_blank s :
  forallb isWhiteSpace (list_ascii_of_string s) = true -> trim s = "".
Proof. intros H. unfold trim. now rewrite trimStart_blank. Qed.

(** [logEntry] itself stores whatever text it is given; rejecting blank
    text is the handlers' doing. *)
Example logEntry_does_not_reject :
  currentDay (fst (logEntry codeUnitCompare nextMorning "" sampleState))
  = Some [("09:15:00", "Code review"); ("15:43:20", "")].
Proof. reflexivity. Qed.

(* ===================================================================== *)
(** * Where the two callbacks agree *)
(* ===================================================================== *)

Lemma leb_truthy a b :
  String.leb a b = true -> truthy a = true -> truthy b = true.
Proof.
  destruct a as [|c a]; [discriminate 2|]. now destruct b.
Qed.

(** In an ascending list a non-empty string is followed by non-empty
    strings only, so the last one is non-empty. *)
Lemma ascending_last_truthy (l : list string) :
  Sorted (fun a b => String.leb a b = true) l ->
  forall k, In k l -> truthy k = true -> truthyOpt (atLast l) = true.
Proof.
  unfold atLast. induction 1 as [|a l Hs IH Hhd]; intros k Hin Hk;
    [destruct Hin|].
  destruct l as [|b l]; cbn.
  - destruct Hin as [->|[]]. exact Hk.
  - destruct Hin as [->|Hin]; [|now apply (IH k)].
    apply (IH b); [now left|].
    inversion Hhd; subst. now apply (leb_truthy k b).
Qed.

Lemma latestKey_truthy (ks : list string) k :
  In k ks -> truthy k = true ->
  truthyOpt (atLast (arraySort codeUnitCompare ks)) = true.
Proof.
  intros Hin Hk. apply (ascending_last_truthy _) with (k := k).
  - pose proof (arraySort_sorted codeUnitCompare ks codeUnitCompare_total) as H.
    induction H as [|a l Hs IH Hhd]; constructor; [exact IH|].
    destruct Hhd as [|b l Hab]; constructor.
    now rewrite codeUnitCompare_nonpos in Hab.
  - now apply arraySort_In.
  - exact Hk.
Qed.

Lemma todayKeyOf_truthy d : truthy (todayKeyOf d) = true.
Proof.
  unfold todayKeyOf, toISOString, isoDate, isoYear.
  destruct ((0 <=? YearFromTime (timeValue d))
            && (YearFromTime (timeValue d) <=? 9999)).
  - now rewrite padDigits_4.
  - now destruct (YearFromTime (timeValue d) <? 0).
Qed.

Lemma objGet_locate n p k :
  is_Some (objGet p k) -> is_Some (objGet (locate n p) k).
Proof.
  revert n. induction p as [|[k0 d0] p IH]; intros n; cbn.
  - intros [? [=]].
  - destruct (String.eqb k0 k); [eauto | apply IH].
Qed.

Section Agreement.

Variable localeCompare : string -> string -> Z.

(** With nothing stored, or with today's key already in the stored
    collection, the two callbacks do the same. *)
Lemma init_variants_agree r d s0 :
  daysOf r = [] \/ is_Some (objGet (daysOf r) (todayKeyOf d)) ->
  onStorageLoaded_popup localeCompare r d s0
  = onStorageLoaded_part000 localeCompare r d s0.
Proof.
  intros Hr.
  rewrite onStorageLoaded_popup_run, onStorageLoaded_part000_run. cbv zeta.
  destruct Hr as [Hr|Hr].
  - unfold loadedState. cbn [logs heap]. rewrite Hr. reflexivity.
  - apply (objGet_locate (length (heap s0))) in Hr.
    change (locate (length (heap s0)) (daysOf r))
      with (logs (loadedState r s0)) in Hr.
    destruct Hr as [c Hc]. rewrite Hc.
    assert (Hk : noLatestKey (logs (loadedState r s0)) = false).
    { unfold noLatestKey.
      rewrite (latestKey_truthy _ (todayKeyOf d)); [reflexivity| |].
      - apply objGet_Some_In in Hc. unfold objKeys.
        now apply (in_map fst) in Hc.
      - apply todayKeyOf_truthy. }
    now rewrite Hk.
Qed.

End Agreement.

(* ===================================================================== *)
(** * The theorems at a concrete session *)
(* ===================================================================== *)

(** The day key of [nextMorning]. *)
Lemma day_key_is_utc_date_at_nextMorning :
  0 <= YearFromTime (timeValue nextMorning) <= 9999
  /\ (todayKeyOf nextMorning =
        padDigits 4 (YearFromTime (timeValue nextMorning)) ++ "-"
        ++ padDigits 2 (MonthFromTime (timeValue nextMorning)) ++ "-"
        ++ padDigits 2 (DateFromTime (timeValue nextMorning))
      /\ isDayKey (todayKeyOf nextMorning) = true
      /\ (Day (LocalTime nextMorning) = Day (timeValue nextMorning) ->
          todayKeyOf nextMorning = localDateKey nextMorning)).
Proof.
  assert (Hy : 0 <= YearFromTime (timeValue nextMorning) <= 9999)
    by (vm_compute; split; discriminate).
  split; [exact Hy | exact (day_key_is_utc_date nextMorning Hy)].
Defined.

(** Two entries half a second apart in [sampleState]. *)
Lemma same_second_last_write_wins_at_sample :
  currentLog sampleState = Some 1%nat
  /\ (1 < length (heap sampleState))%nat
  /\ objWf (deref (heap sampleState) 1) = true
  /\ currentTimeOf nextMorning = currentTimeOf sameSecond
  /\ exists s2 day,
      (logEntry codeUnitCompare nextMorning "first" ;;
       logEntry codeUnitCompare sameSecond "second") sampleState
        = (s2, Some tt)
      /\ currentDay s2 = Some day
      /\ propsNamed day (currentTimeOf sameSecond)
         = [(currentTimeOf sameSecond, "second")]
      /\ objGet day (currentTimeOf sameSecond) = Some "second".
Proof.
  assert (H1 : currentLog sampleState = Some 1%nat) by reflexivity.
  assert (H2 : (1 < length (heap sampleState))%nat) by (cbn; lia).
  assert (H3 : objWf (deref (heap sampleState) 1) = true) by reflexivity.
  assert (H4 : currentTimeOf nextMorning = currentTimeOf sameSecond)
    by reflexivity.
  repeat (split; [assumption|]).
  exact (same_second_last_write_wins codeUnitCompare nextMorning sameSecond
           "first" "second" sampleState 1%nat H1 H2 H3 H4).
Defined.

(** Three spaces submitted in [sampleState]. *)
Lemma blank_submission_is_noop_at_sample :
  trim "   " = ""
  /\ onAddLogClick codeUnitCompare "   " nextMorning sampleState
     = (sampleState, Some tt)
  /\ onKeydown codeUnitCompare (mkKeyEvent "Enter" false) "   " nextMorning
       sampleState = (sampleState, Some tt).
Proof.
  assert (H : trim "   " = "") by reflexivity.
  split; [exact H|].
  exact (blank_submission_is_noop codeUnitCompare "   "
           (mkKeyEvent "Enter" false) nextMorning sampleState H).
Defined.

(** One entry recorded in [sampleState]: what is written. *)
Lemma entry_is_flushed_whole_at_sample :
  currentLog sampleState = Some 1%nat
  /\ (exists s',
        logEntry codeUnitCompare nextMorning "Wrote design doc" sampleState
          = (s', Some tt)
        /\ storageWrites s'
           = (storageWrites sampleState
                ++ [mkStored (collection s') (currentDay s')])%list)
  /\ (forall value, truthy (trim value) = true ->
        onAddLogClick codeUnitCompare value nextMorning
          = logEntry codeUnitCompare nextMorning (trim value)
        /\ onKeydown codeUnitCompare (mkKeyEvent "Enter" false) value nextMorning
           = logEntry codeUnitCompare nextMorning (trim value)).
Proof.
  assert (H : currentLog sampleState = Some 1%nat) by reflexivity.
  split; [exact H|].
  exact (entry_is_flushed_whole codeUnitCompare nextMorning "Wrote design doc"
           sampleState 1%nat H).
Defined.

(** One entry recorded in [sampleState]: what is kept. *)
Lemma logEntry_touches_one_binding_at_sample :
  panelInv "2024-01-16" sampleState = true
  /\ exists s',
      logEntry codeUnitCompare nextMorning "Wrote design doc" sampleState
        = (s', Some tt)
      /\ objKeys (collection s') = objKeys (collection sampleState)
      /\ (forall k day,
            objGet (collection sampleState) k = Some day ->
            exists day',
              objGet (collection s') k = Some day'
              /\ keepsAllBut (currentTimeOf nextMorning) day day'
              /\ (k <> "2024-01-16" -> day' = day))
      /\ (exists cur cur',
            currentDay sampleState = Some cur /\ currentDay s' = Some cur'
            /\ keepsAllBut (currentTimeOf nextMorning) cur cur').
Proof.
  assert (H : panelInv "2024-01-16" sampleState = true) by reflexivity.
  split; [exact H|].
  exact (logEntry_touches_one_binding codeUnitCompare "2024-01-16" nextMorning
           "Wrote design doc" sampleState H).
Defined.

(** A render of [sampleState] on a host that collates by code units. *)
Lemma render_is_newest_first_at_sample :
  collatesByCodeUnit isDayKey codeUnitCompare
  /\ collatesByCodeUnit isTimeKey codeUnitCompare
  /\ currentLog sampleState = Some 1%nat
  /\ keysShaped sampleState = true
  /\ (exists s',
        updateUIState codeUnitCompare sampleState = (s', Some tt)
        /\ Permutation (todayList (view s')) (deref (heap sampleState) 1)
        /\ newestFirstOrder (map fst (todayList (view s')))
        /\ Permutation (map fst (allList (view s'))) (objKeys (logs sampleState))
        /\ newestFirstOrder (map fst (allList (view s')))
        /\ Forall (fun item =>
                     newestFirstOrder (map fst (snd item))
                     /\ exists l, In (fst item, l) (logs sampleState)
                                  /\ Permutation (snd item)
                                       (deref (heap sampleState) l))
                  (allList (view s')))
  /\ (forall x y z : string,
        renderToday codeUnitCompare
          [("09:00:00", x); ("14:20:00", y); ("08:15:00", z)]
        = [("14:20:00", y); ("09:00:00", x); ("08:15:00", z)])
  /\ (forall (h : list DayLog) (l1 l2 : loc),
        map fst (renderAll codeUnitCompare h
                   [("2024-01-15", l1); ("2024-01-16", l2)])
        = ["2024-01-16"; "2024-01-15"]).
Proof.
  assert (H1 : currentLog sampleState = Some 1%nat) by reflexivity.
  assert (H2 : keysShaped sampleState = true) by reflexivity.
  split; [exact (codeUnitCompare_collates isDayKey)|].
  split; [exact (codeUnitCompare_collates isTimeKey)|].
  split; [exact H1|]. split; [exact H2|].
  exact (render_is_newest_first codeUnitCompare
           (codeUnitCompare_collates isDayKey)
           (codeUnitCompare_collates isTimeKey) sampleState 1%nat H1 H2).
Defined.

(* ===================================================================== *)
(** * The handlers and a single entry *)
(* ===================================================================== *)

Lemma objSet_objSet {V} (o : obj V) k v v' :
  objSet (objSet o k v) k v' = objSet o k v'.
Proof.
  induction o as [|[k0 v0] o IH]; cbn.
  - now rewrite String.eqb_refl.
  - destruct (String.eqb k0 k) eqn:E; cbn; rewrite E; [reflexivity|].
    now rewrite IH.
Qed.

Lemma dayAfterEntry_objSet o t newLog :
  dayAfterEntry o t newLog = objSet o t newLog.
Proof.
  unfold dayAfterEntry.
  destruct (negb (truthyOpt (objGet o t))); [apply objSet_objSet | reflexivity].
Qed.

Lemma objGet_existsb {V} (o : obj V) k :
  existsb (String.eqb k) (objKeys o)
  = match objGet o k with Some _ => true | None => false end.
Proof.
  induction o as [|[k0 v0] o IH]; cbn; [reflexivity|].
  rewrite (String.eqb_sym k k0). now destruct (String.eqb k0 k).
Qed.

Section Handlers.

Variable localeCompare : string -> string -> Z.

(** X1 -- before the storage callback has run, [currentLog] is [null]:
    [logEntry] throws, and so does either submit handler on text that is
    not blank; nothing is stored, written or rendered. *)
Theorem submit_before_load_throws
    (value : string) (d : Clock) (s : State)
    (Hnull : currentLog s = None)
    (Htext : truthy (trim value) = true) :
  logEntry localeCompare d value s = (s, None)
  /\ onAddLogClick localeCompare value d s = (s, None)
  /\ onKeydown localeCompare (mkKeyEvent "Enter" false) value d s = (s, None).
Proof.
  split; [now apply logEntry_null|].
  rewrite onAddLogClick_submits, onKeydown_submits by exact Htext.
  split; now apply logEntry_null.
Qed.

Lemma keydown_routes_like_click_aux
    (e : KeyEvent) (value : string) (d : Clock) (s : State) :
  onKeydown localeCompare e value d s =
    if String.eqb (key e) "Enter" && negb (shiftKey e)
    then onAddLogClick localeCompare value d s
    else (s, Some tt).
Proof.
  unfold onKeydown, onAddLogClick.
  now destruct (String.eqb (key e) "Enter" && negb (shiftKey e)).
Qed.

(** X2 -- the two ways to submit.  Enter without Shift does exactly what a
    click on the add button does, whatever the text; any other key, and
    Enter with Shift, does nothing. *)
Theorem keydown_routes_like_click
    (e : KeyEvent) (value : string) (d : Clock) (s : State) :
  onKeydown localeCompare e value d s =
    if String.eqb (key e) "Enter" && negb (shiftKey e)
    then onAddLogClick localeCompare value d s
    else (s, Some tt).
Proof. apply keydown_routes_like_click_aux. Qed.

(** X3 -- what one [logEntry] leaves in the current-day log.  The result
    is that of the single assignment [currentLog[time] = text]: the slot
    initialisation leaves no trace.  A time key already present keeps its
    place among the keys; a new one goes last. *)
Theorem logEntry_is_one_assignment
    (d : Clock) (newLog : string) (s : State) (cl : loc)
    (Hcur : currentLog s = Some cl)
    (Hlive : (cl < length (heap s))%nat) :
  exists s',
    logEntry localeCompare d newLog s = (s', Some tt)
    /\ currentDay s'
       = Some (objSet (deref (heap s) cl) (currentTimeOf d) newLog)
    /\ objKeys (deref (heap s') cl)
       = match objGet (deref (heap s) cl) (currentTimeOf d) with
         | Some _ => objKeys (deref (heap s) cl)
         | None => (objKeys (deref (heap s) cl) ++ [currentTimeOf d])%list
         end.
Proof.
  rewrite (logEntry_run _ d newLog s cl Hcur).
  fold (entryState localeCompare d newLog s cl).
  eexists. split; [reflexivity|].
  rewrite entryState_current by exact Hlive.
  rewrite dayAfterEntry_objSet. split; [reflexivity|].
  change (heap (entryState localeCompare d newLog s cl))
    with (heapAfterEntry (heap s) cl (currentTimeOf d) newLog).
  rewrite heapAfterEntry_current by exact Hlive.
  rewrite dayAfterEntry_objSet, objKeys_objSet, objGet_existsb.
  now destruct (objGet (deref (heap s) cl) (currentTimeOf d)).
Qed.

(** X4 -- a render shows what is there, whatever the locale.  With any
    [localeCompare] at all, [updateUIState] changes nothing but the view;
    the today list is a rearrangement of the entries of the current-day
    log; the all-history list has one item per day of the collection, and
    each item lists a rearrangement of the entries of its day. *)
Theorem render_shows_every_entry
    (s : State) (cl : loc) (Hcur : currentLog s = Some cl) :
  exists s',
    updateUIState localeCompare s = (s', Some tt)
    /\ heap s' = heap s /\ logs s' = logs s /\ currentLog s' = currentLog s
    /\ storageWrites s' = storageWrites s
    /\ Permutation (todayList (view s')) (deref (heap s) cl)
    /\ Permutation (map fst (allList (view s'))) (objKeys (logs s))
    /\ Forall (fun item =>
                 exists l, In (fst item, l) (logs s)
                           /\ Permutation (snd item) (deref (heap s) l))
              (allList (view s')).
Proof.
  rewrite (updateUIState_run _ s cl Hcur). eexists. split; [reflexivity|].
  cbn [heap logs currentLog storageWrites view todayList allList].
  repeat (split; [reflexivity|]).
  rewrite renderToday_sort, renderAll_sort.
  split; [apply arraySort_perm|].
  rewrite map_map. cbn [fst].
  split; [unfold objKeys; apply Permutation_map, arraySort_perm|].
  apply List.Forall_forall. intros item Hitem.
  apply in_map_iff in Hitem as [[k l] [<- Hkl]]. cbn [fst snd].
  apply arraySort_In in Hkl.
  exists l. split; [exact Hkl | apply arraySort_perm].
Qed.

(** X5 -- the entry just recorded is on screen.  After a [logEntry] the
    today list shows the entry and the add button is enabled; when
    [currentLog] is the object of day [tk] in the collection, the
    all-history list shows the entry under [tk] and the show-all button is
    enabled. *)
Theorem recorded_entry_is_shown
    (tk : string) (d : Clock) (newLog : string) (s : State) (cl : loc)
    (Hcur : currentLog s = Some cl)
    (Hlive : (cl < length (heap s))%nat) :
  exists s',
    logEntry localeCompare d newLog s = (s', Some tt)
    /\ In (currentTimeOf d, newLog) (todayList (view s'))
    /\ addLogDisabled (view s') = false
    /\ (objGet (logs s) tk = Some cl ->
        showLogsDisabled (view s') = false
        /\ exists item, In item (allList (view s'))
                        /\ fst item = tk
                        /\ In (currentTimeOf d, newLog) (snd item)).
Proof.
  rewrite (logEntry_run _ d newLog s cl Hcur).
  eexists. split; [reflexivity|].
  unfold savedState.
  cbn [heap logs currentLog storageWrites view todayList allList
       addLogDisabled showLogsDisabled].
  rewrite heapAfterEntry_current by exact Hlive.
  set (day := dayAfterEntry (deref (heap s) cl) (currentTimeOf d) newLog).
  assert (Hin : In (currentTimeOf d, newLog) day).
  { apply objGet_Some_In, dayAfterEntry_get. }
  split; [rewrite renderToday_sort; now apply arraySort_In|].
  split.
  { destruct day as [|e day']; [destruct Hin | reflexivity]. }
  intros Halias. apply objGet_Some_In in Halias.
  split.
  { destruct (logs s) as [|e lg]; [destruct Halias | reflexivity]. }
  rewrite renderAll_sort.
  exists (tk, arraySort (newestFirst localeCompare)
                (deref (heapAfterEntry (heap s) cl (currentTimeOf d) newLog) cl)).
  split.
  - apply in_map_iff. exists (tk, cl). split; [reflexivity|].
    now apply arraySort_In.
  - split; [reflexivity|]. cbn [snd].
    rewrite heapAfterEntry_current by exact Hlive. now apply arraySort_In.
Qed.

End Handlers.

(* ===================================================================== *)
(** * What the storage callback does to what was stored *)
(* ===================================================================== *)

Lemma objSet_absent {V} (o : obj V) k v :
  objGet o k = None -> objSet o k v = (o ++ [(k, v)])%list.
Proof.
  induction o as [|[k0 v0] o IH]; cbn; [reflexivity|].
  destruct (String.eqb k0 k); [discriminate|].
  intros H. now rewrite IH.
Qed.

(** Reading the references of [fromStorage] back gives the stored days,
    whatever was allocated afterwards. *)
Lemma collect_locate (h extra : list DayLog) (p : obj DayLog) :
  map (fun kl => (fst kl, deref ((h ++ map snd p) ++ extra)%list (snd kl)))
      (locate (length h) p) = p.
Proof.
  revert h. induction p as [|[k d] p IH]; intros h; cbn; [reflexivity|].
  f_equal.
  - f_equal. unfold deref. rewrite <- app_assoc, lookup_app_r by lia.
    now rewrite Nat.sub_diag.
  - specialize (IH (h ++ [d])%list).
    rewrite length_app, Nat.add_1_r in IH. cbn in IH.
    rewrite <- (app_assoc h [d]) in IH. exact IH.
Qed.

Lemma collection_loaded r s0 extra cur st v :
  collection (mkState (heap (loadedState r s0) ++ extra)%list
                (logs (loadedState r s0)) cur st v) = daysOf r.
Proof. unfold collection, loadedState. cbn. apply collect_locate. Qed.

Lemma collection_loaded_nil r s0 cur st v :
  collection (mkState (heap (loadedState r s0))
                (logs (loadedState r s0)) cur st v) = daysOf r.
Proof.
  rewrite <- (collection_loaded r s0 [] cur st v). now rewrite app_nil_r.
Qed.

(** The object a loaded reference names holds the stored day. *)
Lemma objGet_loaded r s0 k :
  objGet (daysOf r) k
  = deref (heap (loadedState r s0)) <$> objGet (logs (loadedState r s0)) k.
Proof.
  rewrite <- (collection_loaded_nil r s0 None [] (view s0)) at 1.
  now rewrite objGet_collection.
Qed.

Lemma loaded_ref_bound r s0 k c :
  objGet (logs (loadedState r s0)) k = Some c ->
  (c < length (heap (loadedState r s0)))%nat.
Proof.
  intros H. apply objGet_Some_In, locate_In_bound in H.
  rewrite loadedState_heap_length. lia.
Qed.

Section Opening.

Variable localeCompare : string -> string -> Z.

(** X6 -- opening the panel with [src/unnamed/part_000] loses nothing.
    The callback leaves every stored day as it was, in the stored order,
    and adds an empty day for today at the end when today was not stored;
    the current-day log is today's stored day, or empty; and what it writes
    back is exactly this collection and this current-day log. *)
Theorem part000_opens_without_loss
    (r : option (obj DayLog)) (d : Clock) (s0 : State) :
  exists s1,
    onStorageLoaded_part000 localeCompare r d s0 = (s1, Some tt)
    /\ storageWrites s1
       = (storageWrites s0 ++ [mkStored (collection s1) (currentDay s1)])%list
    /\ match objGet (daysOf r) (todayKeyOf d) with
       | Some day => collection s1 = daysOf r /\ currentDay s1 = Some day
       | None => collection s1 = (daysOf r ++ [(todayKeyOf d, [])])%list
                 /\ currentDay s1 = Some []
       end.
Proof.
  rewrite onStorageLoaded_part000_run. cbv zeta.
  rewrite (objGet_loaded r s0).
  destruct (objGet (logs (loadedState r s0)) (todayKeyOf d)) as [c|] eqn:E.
  - eexists. split; [reflexivity|]. split; [reflexivity|].
    cbn [fmap option_fmap option_map]. split; [|reflexivity].
    unfold savedState. apply collection_loaded_nil.
  - eexists. split; [reflexivity|]. split; [reflexivity|].
    cbn [fmap option_fmap option_map]. split.
    + unfold savedState, collection.
      cbn [heap logs]. rewrite (objSet_absent _ _ _ E), map_app.
      f_equal.
      * apply (collection_loaded r s0 [[]] None [] (view s0)).
      * cbn. f_equal. f_equal. unfold deref.
        rewrite lookup_app_r by lia. now rewrite Nat.sub_diag.
    + unfold savedState, currentDay. cbn. f_equal. unfold deref.
      rewrite lookup_app_r by lia. now rewrite Nat.sub_diag.
Qed.

(** X7 -- opening the panel with [src/popup.js] on a collection that has a
    non-empty key.  The callback leaves the collection exactly as stored,
    today's day included or not, and writes it back unchanged; the
    current-day log is today's stored day, or an empty log when today was
    not stored. *)
Theorem popup_opens_as_stored
    (r : option (obj DayLog)) (d : Clock) (s0 : State) (k0 : string)
    (Hkey : In k0 (objKeys (daysOf r)))
    (Hk0 : truthy k0 = true) :
  exists s1,
    onStorageLoaded_popup localeCompare r d s0 = (s1, Some tt)
    /\ collection s1 = daysOf r
    /\ currentDay s1 = Some (default [] (objGet (daysOf r) (todayKeyOf d)))
    /\ storageWrites s1
       = (storageWrites s0 ++ [mkStored (daysOf r) (currentDay s1)])%list.
Proof.
  rewrite onStorageLoaded_popup_run. cbv zeta.
  assert (Hno : noLatestKey (logs (loadedState r s0)) = false).
  { unfold noLatestKey. rewrite (latestKey_truthy _ k0); [reflexivity| |exact Hk0].
    unfold loadedState. cbn [logs]. now rewrite objKeys_locate. }
  rewrite Hno, (objGet_loaded r s0).
  destruct (objGet (logs (loadedState r s0)) (todayKeyOf d)) as [c|] eqn:E.
  - eexists. split; [reflexivity|].
    assert (Hc : collection
                   (savedState localeCompare
                      (mkState (heap (loadedState r s0)) (logs (loadedState r s0))
                         (Some c) (storageWrites (loadedState r s0))
                         (view (loadedState r s0))) c) = daysOf r)
      by (unfold savedState; apply collection_loaded_nil).
    split; [exact Hc|]. split; [reflexivity|].
    unfold savedState at 1. cbn [storageWrites]. f_equal. f_equal.
    f_equal. apply collection_loaded_nil.
  - eexists. split; [reflexivity|].
    assert (Hc : collection
                   (savedState localeCompare
                      (mkState (heap (loadedState r s0) ++ [[]])%list
                         (logs (loadedState r s0))
                         (Some (length (heap (loadedState r s0))))
                         (storageWrites (loadedState r s0))
                         (view (loadedState r s0)))
                      (length (heap (loadedState r s0)))) = daysOf r)
      by (unfold savedState; apply collection_loaded).
    split; [exact Hc|]. split.
    + unfold savedState, currentDay. cbn. f_equal. unfold deref.
      rewrite lookup_app_r by lia. now rewrite Nat.sub_diag.
    + unfold savedState at 1. cbn [storageWrites]. f_equal. f_equal.
      f_equal. apply collection_loaded.
Qed.

(** X8 -- the buttons after opening with [src/unnamed/part_000].  The
    show-all button is always enabled.  The add button is disabled exactly
    when today has no stored entry: on a day without entries the first one
    cannot be added with the button. *)
Theorem part000_buttons_after_opening
    (r : option (obj DayLog)) (d : Clock) (s0 : State) :
  exists s1,
    onStorageLoaded_part000 localeCompare r d s0 = (s1, Some tt)
    /\ showLogsDisabled (view s1) = false
    /\ addLogDisabled (view s1)
       = match objGet (daysOf r) (todayKeyOf d) with
         | Some (_ :: _) => false
         | _ => true
         end.
Proof.
  rewrite onStorageLoaded_part000_run. cbv zeta.
  rewrite (objGet_loaded r s0).
  destruct (objGet (logs (loadedState r s0)) (todayKeyOf d)) as [c|] eqn:E.
  - eexists. split; [reflexivity|].
    unfold savedState. cbn [view showLogsDisabled addLogDisabled logs heap
                             fmap option_fmap option_map].
    split.
    + apply objGet_Some_In in E.
      destruct (logs (loadedState r s0)); [destruct E | reflexivity].
    + now destruct (deref (heap (loadedState r s0)) c).
  - eexists. split; [reflexivity|].
    unfold savedState. cbn [view showLogsDisabled addLogDisabled logs heap
                             fmap option_fmap option_map].
    split.
    + rewrite (objSet_absent _ _ _ E).
      now destruct (logs (loadedState r s0)).
    + unfold deref. rewrite lookup_app_r by lia. now rewrite Nat.sub_diag.
Qed.

End Opening.

(* ===================================================================== *)
(** * Whole sessions *)
(* ===================================================================== *)

Lemma heapAfterEntry_insert h cl t newLog :
  heapAfterEntry h cl t newLog = <[cl := objSet (deref h cl) t newLog]> h.
Proof.
  unfold heapAfterEntry.
  destruct (negb (truthyOpt (objGet (deref h cl) t))); [|reflexivity].
  destruct (Nat.lt_ge_cases cl (length h)) as [Hlt|Hge].
  - rewrite deref_insert_eq by exact Hlt.
    now rewrite list_insert_insert_eq, objSet_objSet.
  - now rewrite !list_insert_ge by (rewrite ?length_insert; lia).
Qed.

Lemma objSet_texts (o : DayLog) t v :
  forallb (fun e => truthy (snd e)) o = true -> truthy v = true ->
  forallb (fun e => truthy (snd e)) (objSet o t v) = true.
Proof.
  intros Ho Hv. induction o as [|[k0 v0] o IH]; cbn; [now rewrite Hv|].
  cbn in Ho. apply andb_prop in Ho as [H0 Ho].
  destruct (String.eqb k0 t); cbn.
  - now rewrite Hv, Ho.
  - now rewrite H0, IH.
Qed.

Lemma deref_texts (h : list DayLog) l :
  forallb (fun o : DayLog => forallb (fun e => truthy (snd e)) o) h = true ->
  forallb (fun e : string * string => truthy (snd e)) (deref h l) = true.
Proof.
  intros H. unfold deref. destruct (h !! l) as [o|] eqn:E; cbn; [|reflexivity].
  rewrite forallb_forall in H. apply H.
  apply list_elem_of_In, list_elem_of_lookup. eauto.
Qed.

Lemma hasEntry_objSet (o : DayLog) t v t' :
  is_Some (objGet o t') -> is_Some (objGet (objSet o t v) t').
Proof.
  intros H. destruct (String.eqb t t') eqn:E.
  - apply String.eqb_eq in E. subst. rewrite objGet_objSet_eq. eauto.
  - apply String.eqb_neq in E. now rewrite objGet_objSet_ne.
Qed.

Section Sessions.

Variable localeCompare : string -> string -> Z.

Lemma runCalls_snoc cs c p :
  runCalls localeCompare (cs ++ [c]) p
  = dispatch localeCompare c (runCalls localeCompare cs p).
Proof. unfold runCalls. now rewrite foldl_app. Qed.

(** A listener call on an opened panel either leaves the script's state
    alone or records one entry with non-empty text. *)
Lemma dispatch_panel c p cl :
  currentLog (panel p) = Some cl ->
  panel (dispatch localeCompare c p) = panel p
  \/ exists d v, truthy v = true
       /\ panel (dispatch localeCompare c p)
          = entryState localeCompare d v (panel p) cl.
Proof.
  intros Hcur.
  assert (Hadd : forall value d,
             fst (onAddLogClick localeCompare value d (panel p)) = panel p
             \/ exists d' v, truthy v = true
                  /\ fst (onAddLogClick localeCompare value d (panel p))
                     = entryState localeCompare d' v (panel p) cl).
  { intros value d. unfold onAddLogClick. rewrite trim_valueOrEmpty.
    destruct (truthy (trim value)) eqn:Ht; [|now left].
    right. exists d, (trim value). split; [exact Ht|].
    now rewrite (logEntry_run _ d (trim value) (panel p) cl Hcur). }
  destruct c as [e value d|value d| |]; cbn [dispatch panel];
    [|apply Hadd|now left|now left].
  rewrite keydown_routes_like_click_aux.
  destruct (String.eqb (key e) "Enter" && negb (shiftKey e));
    [apply Hadd | now left].
Qed.

(** What holds when the panel is opened and is kept by every recorded
    entry holds after every sequence of listener calls. *)
Lemma runCalls_keeps (P : State -> Prop) cs p :
  (forall s, P s -> is_Some (currentLog s)) ->
  (forall s cl d v, P s -> currentLog s = Some cl -> truthy v = true ->
     P (entryState localeCompare d v s cl)) ->
  P (panel p) -> P (panel (runCalls localeCompare cs p)).
Proof.
  intros Hsome Hstep Hp. induction cs as [|c cs IH] using rev_ind; [exact Hp|].
  rewrite runCalls_snoc.
  destruct (Hsome _ IH) as [cl Hcl].
  destruct (dispatch_panel c _ cl Hcl) as [->|[d [v [Hv ->]]]];
    [exact IH | now apply Hstep].
Qed.

End Sessions.

Lemma lastWrite_savedState lc s cl :
  lastWrite (savedState lc s cl)
  = Some (mkStored (collection (savedState lc s cl))
                   (currentDay (savedState lc s cl))).
Proof. unfold lastWrite, savedState. cbn [storageWrites]. apply last_snoc. Qed.

Lemma collection_savedState lc s cl :
  collection (savedState lc s cl) = collection s.
Proof. reflexivity. Qed.

Lemma entryState_keeps_entry lc d v s cl k t :
  (cl < length (heap s))%nat ->
  hasEntry (collection s) k t ->
  hasEntry (collection (entryState lc d v s cl)) k t.
Proof.
  intros Hlive [day [Hday Ht]]. unfold hasEntry.
  rewrite objGet_collection in Hday. rewrite objGet_collection.
  change (logs (entryState lc d v s cl)) with (logs s).
  destruct (objGet (logs s) k) as [l|]; [|discriminate].
  cbn in Hday. injection Hday as <-. cbn. eexists. split; [reflexivity|].
  change (heap (entryState lc d v s cl))
    with (heapAfterEntry (heap s) cl (currentTimeOf d) v).
  destruct (Nat.eq_dec l cl) as [->|Hne].
  - rewrite heapAfterEntry_current, dayAfterEntry_objSet by exact Hlive.
    now apply hasEntry_objSet.
  - now rewrite heapAfterEntry_other.
Qed.

Lemma panelInv_live tk s :
  panelInv tk s = true ->
  exists cl, currentLog s = Some cl /\ (cl < length (heap s))%nat.
Proof.
  unfold panelInv. destruct (currentLog s) as [cl|]; [|discriminate].
  intros H. apply andb_prop in H as [H _]. apply Nat.ltb_lt in H. eauto.
Qed.

Section SessionFacts.

Variable localeCompare : string -> string -> Z.

(** Opening ends in a save, with [currentLog] set. *)
Lemma opened_is_saved v r d p :
  exists s cl,
    panel (opened localeCompare v r d p) = savedState localeCompare s cl
    /\ currentLog s = Some cl.
Proof.
  unfold opened, onStorageLoaded. cbn [panel]. destruct v.
  - rewrite onStorageLoaded_popup_run. cbv zeta.
    destruct (noLatestKey (logs (loadedState r (panel p))));
      [|destruct (objGet (logs (loadedState r (panel p))) (todayKeyOf d))];
      cbn [fst]; eexists _, _; split; reflexivity.
  - rewrite onStorageLoaded_part000_run. cbv zeta.
    destruct (objGet (logs (loadedState r (panel p))) (todayKeyOf d));
      cbn [fst]; eexists _, _; split; reflexivity.
Qed.

Lemma opened_inv v r d p :
  panelInv (todayKeyOf d) (panel (opened localeCompare v r d p)) = true.
Proof.
  unfold opened, onStorageLoaded. cbn [panel]. destruct v.
  - apply popup_establishes_inv.
  - apply part000_establishes_inv.
Qed.

Lemma session_inv v r d cs p :
  panelInv (todayKeyOf d) (panel (session localeCompare v r d cs p)) = true.
Proof.
  unfold session.
  apply (runCalls_keeps localeCompare
           (fun s => panelInv (todayKeyOf d) s = true)).
  - intros s Hs. destruct (panelInv_live _ _ Hs) as [cl [Hcl _]]. eauto.
  - intros s cl d' v' Hs Hcl _. now rewrite panelInv_logEntry.
  - apply opened_inv.
Qed.

Lemma session_in_sync v r d cs p :
  lastWrite (panel (session localeCompare v r d cs p))
  = Some (mkStored (collection (panel (session localeCompare v r d cs p)))
                   (currentDay (panel (session localeCompare v r d cs p)))).
Proof.
  unfold session.
  apply (runCalls_keeps localeCompare
           (fun s => is_Some (currentLog s)
                     /\ lastWrite s
                        = Some (mkStored (collection s) (currentDay s)))).
  - now intros s [Hs _].
  - intros s cl d' v' _ Hcl _. split; [now exists cl|].
    apply lastWrite_savedState.
  - destruct (opened_is_saved v r d p) as [s [cl [-> Hcl]]].
    split; [|apply lastWrite_savedState].
    unfold savedState. cbn [currentLog]. rewrite Hcl. eauto.
Qed.

Lemma part000_session_alias r d cs p :
  exists cl,
    currentLog (panel (session localeCompare Part000 r d cs p)) = Some cl
    /\ objGet (logs (panel (session localeCompare Part000 r d cs p)))
         (todayKeyOf d) = Some cl
    /\ (cl < length (heap (panel (session localeCompare Part000 r d cs p))))%nat.
Proof.
  unfold session.
  apply (runCalls_keeps localeCompare
           (fun s => exists cl, currentLog s = Some cl
                       /\ objGet (logs s) (todayKeyOf d) = Some cl
                       /\ (cl < length (heap s))%nat)).
  - intros s [cl [Hcl _]]. eauto.
  - intros s cl d' v' [cl' [Hcl' [Hl Hlive]]] Hcl _.
    assert (cl' = cl) as -> by congruence.
    exists cl. split; [reflexivity|]. split; [exact Hl|].
    unfold entryState, savedState. cbn [heap].
    now rewrite heapAfterEntry_length.
  - unfold opened, onStorageLoaded. cbn [panel].
    destruct (part000_current_day_is_aliased localeCompare r d (panel p))
      as [s1 [cl [Hrun H]]].
    rewrite Hrun. cbn [fst]. eauto.
Qed.

(** X9 -- the alias lasts the whole session.  In a session opened by
    [src/unnamed/part_000], after any sequence of listener calls,
    [currentLog] and [logs[todayKey]] still hold the same live object. *)
Theorem part000_session_keeps_alias
    (r : option (obj DayLog)) (d : Clock) (cs : list Call) (p : Page) :
  exists cl,
    currentLog (panel (session localeCompare Part000 r d cs p)) = Some cl
    /\ objGet (logs (panel (session localeCompare Part000 r d cs p)))
         (todayKeyOf d) = Some cl
    /\ (cl < length (heap (panel (session localeCompare Part000 r d cs p))))%nat.
Proof. apply part000_session_alias. Qed.

(** X10 -- once the panel is opened no listener throws.  With either
    variant, after any sequence of listener calls, both submit handlers
    and [logEntry] run to their end on any input. *)
Theorem opened_session_never_throws
    (v : Script) (r : option (obj DayLog)) (d : Clock) (cs : list Call)
    (p : Page) (e : KeyEvent) (value : string) (d' : Clock) :
  snd (onKeydown localeCompare e value d'
         (panel (session localeCompare v r d cs p))) = Some tt
  /\ snd (onAddLogClick localeCompare value d'
            (panel (session localeCompare v r d cs p))) = Some tt
  /\ snd (logEntry localeCompare d' value
            (panel (session localeCompare v r d cs p))) = Some tt.
Proof.
  destruct (panelInv_live _ _ (session_inv v r d cs p)) as [cl [Hcl _]].
  set (s := panel (session localeCompare v r d cs p)) in *.
  assert (Hlog : forall text, snd (logEntry localeCompare d' text s) = Some tt).
  { intros text. now rewrite (logEntry_run _ d' text s cl Hcl). }
  assert (Hadd : snd (onAddLogClick localeCompare value d' s) = Some tt).
  { unfold onAddLogClick. destruct (truthy (trim (valueOrEmpty value)));
      [apply Hlog | reflexivity]. }
  split; [|split; [exact Hadd | apply Hlog]].
  rewrite keydown_routes_like_click_aux.
  now destruct (String.eqb (key e) "Enter" && negb (shiftKey e)).
Qed.

(** X11 -- storage follows memory.  With either variant, after the panel
    is opened and after any sequence of listener calls, the most recent
    storage write holds exactly the collection and the current-day log as
    they are in memory. *)
Theorem last_write_matches_memory
    (v : Script) (r : option (obj DayLog)) (d : Clock) (cs : list Call)
    (p : Page) :
  lastWrite (panel (session localeCompare v r d cs p))
  = Some (mkStored (collection (panel (session localeCompare v r d cs p)))
                   (currentDay (panel (session localeCompare v r d cs p)))).
Proof. apply session_in_sync. Qed.

End SessionFacts.

Lemma objGet_app_l {V} (o o' : obj V) k v :
  objGet o k = Some v -> objGet (o ++ o')%list k = Some v.
Proof.
  induction o as [|[k0 v0] o IH]; cbn; [discriminate|].
  now destruct (String.eqb k0 k).
Qed.

Lemma collection_fresh_day r s0 tk cur st v :
  objGet (logs (loadedState r s0)) tk = None ->
  collection (mkState (heap (loadedState r s0) ++ [[]])%list
                (objSet (logs (loadedState r s0)) tk
                   (length (heap (loadedState r s0)))) cur st v)
  = (daysOf r ++ [(tk, [])])%list.
Proof.
  intros E. unfold collection. cbn [heap logs].
  rewrite (objSet_absent _ _ _ E), map_app. f_equal.
  - apply (collection_loaded r s0 [[]] None [] (view s0)).
  - cbn. f_equal. f_equal. unfold deref.
    rewrite lookup_app_r by lia. now rewrite Nat.sub_diag.
Qed.

Lemma noLatestKey_absent r s0 d :
  noLatestKey (logs (loadedState r s0)) = true ->
  objGet (logs (loadedState r s0)) (todayKeyOf d) = None.
Proof.
  intros Hno.
  destruct (objGet (logs (loadedState r s0)) (todayKeyOf d)) as [c|] eqn:E;
    [|reflexivity].
  unfold noLatestKey in Hno.
  rewrite (latestKey_truthy _ (todayKeyOf d)) in Hno; [discriminate| |].
  - apply objGet_Some_In in E. unfold objKeys. now apply (in_map fst) in E.
  - apply todayKeyOf_truthy.
Qed.

Lemma forallb_texts_app (h h' : list DayLog) :
  forallb (fun o : DayLog => forallb (fun e => truthy (snd e)) o) (h ++ h')%list
  = forallb (fun o : DayLog => forallb (fun e => truthy (snd e)) o) h
    && forallb (fun o : DayLog => forallb (fun e => truthy (snd e)) o) h'.
Proof. apply forallb_app. Qed.

Section SessionData.

Variable localeCompare : string -> string -> Z.

(** Opening keeps every stored day, with either variant. *)
Lemma opened_keeps_stored v r d p k day :
  objGet (daysOf r) k = Some day ->
  objGet (collection (panel (opened localeCompare v r d p))) k = Some day.
Proof.
  intros Hday. unfold opened, onStorageLoaded. cbn [panel]. destruct v.
  - rewrite onStorageLoaded_popup_run. cbv zeta.
    destruct (noLatestKey (logs (loadedState r (panel p)))) eqn:Hno;
      [|destruct (objGet (logs (loadedState r (panel p))) (todayKeyOf d))];
      cbn [fst]; rewrite collection_savedState.
    + rewrite collection_fresh_day by now apply noLatestKey_absent.
      now apply objGet_app_l.
    + now rewrite collection_loaded_nil.
    + now rewrite collection_loaded.
  - rewrite onStorageLoaded_part000_run. cbv zeta.
    destruct (objGet (logs (loadedState r (panel p))) (todayKeyOf d)) eqn:E;
      cbn [fst]; rewrite collection_savedState.
    + now rewrite collection_loaded_nil.
    + rewrite collection_fresh_day by exact E. now apply objGet_app_l.
Qed.

Lemma runCalls_keeps_entry tk cs p k t :
  panelInv tk (panel p) = true ->
  hasEntry (collection (panel p)) k t ->
  hasEntry (collection (panel (runCalls localeCompare cs p))) k t.
Proof.
  intros Hinv Hent.
  apply (runCalls_keeps localeCompare
           (fun s => panelInv tk s = true /\ hasEntry (collection s) k t));
    [| |now split].
  - intros s [Hs _]. destruct (panelInv_live _ _ Hs) as [cl [Hcl _]]. eauto.
  - intros s cl d' v' [Hs He] Hcl _.
    split; [now rewrite panelInv_logEntry|].
    destruct (panelInv_live _ _ Hs) as [cl' [Hcl' Hlive]].
    assert (cl' = cl) as -> by congruence.
    now apply entryState_keeps_entry.
Qed.

(** X12 -- nothing is dropped.  With either variant, an entry that was
    stored when the panel was opened, or that is in the collection at some
    point of the session, is in the collection at every later point, and in
    the most recent storage write. *)
Theorem session_keeps_entries
    (v : Script) (r : option (obj DayLog)) (d : Clock)
    (cs1 cs2 : list Call) (p : Page) (k t : string)
    (Hentry : hasEntry (daysOf r) k t
              \/ hasEntry (collection
                             (panel (session localeCompare v r d cs1 p))) k t) :
  hasEntry (collection (panel (session localeCompare v r d (cs1 ++ cs2) p))) k t
  /\ exists w,
       lastWrite (panel (session localeCompare v r d (cs1 ++ cs2) p)) = Some w
       /\ hasEntry (storedLogs w) k t.
Proof.
  assert (H1 : hasEntry (collection
                           (panel (session localeCompare v r d cs1 p))) k t).
  { destruct Hentry as [[day [Hday Ht]]|H]; [|exact H].
    unfold session. apply (runCalls_keeps_entry (todayKeyOf d)).
    - apply opened_inv.
    - exists day. split; [now apply opened_keeps_stored | exact Ht]. }
  assert (H2 : hasEntry (collection
                 (panel (session localeCompare v r d (cs1 ++ cs2) p))) k t).
  { unfold session, runCalls. rewrite foldl_app.
    apply (runCalls_keeps_entry (todayKeyOf d)); [|exact H1].
    apply session_inv. }
  split; [exact H2|].
  eexists. split; [apply session_in_sync | exact H2].
Qed.

(** X13 -- closing and reopening with [src/unnamed/part_000].  When the
    panel is opened again on the same day key from what a session wrote
    last, the collection and the current-day log are, by value, those the
    session ended with. *)
Theorem part000_reopen_restores
    (r : option (obj DayLog)) (d : Clock) (cs : list Call) (p : Page)
    (d' : Clock) (p' : Page) (w : Stored)
    (Hday : todayKeyOf d' = todayKeyOf d)
    (Hw : lastWrite (panel (session localeCompare Part000 r d cs p)) = Some w) :
  collection (panel (opened localeCompare Part000 (Some (storedLogs w)) d' p'))
  = collection (panel (session localeCompare Part000 r d cs p))
  /\ currentDay (panel (opened localeCompare Part000 (Some (storedLogs w)) d' p'))
     = currentDay (panel (session localeCompare Part000 r d cs p)).
Proof.
  rewrite session_in_sync in Hw. injection Hw as <-. cbn [storedLogs].
  destruct (part000_session_alias localeCompare r d cs p) as [cl [Hcl [Hl _]]].
  set (s := panel (session localeCompare Part000 r d cs p)) in *.
  assert (Htoday : objGet (collection s) (todayKeyOf d')
                   = Some (deref (heap s) cl)).
  { rewrite Hday, objGet_collection, Hl. reflexivity. }
  unfold opened, onStorageLoaded. cbn [panel].
  rewrite onStorageLoaded_part000_run. cbv zeta.
  pose proof (objGet_loaded (Some (collection s)) (panel p') (todayKeyOf d'))
    as Hload.
  cbn [daysOf] in Hload. rewrite Htoday in Hload.
  destruct (objGet (logs (loadedState (Some (collection s)) (panel p')))
              (todayKeyOf d')) as [c|]; [|discriminate].
  cbn [fmap option_fmap option_map] in Hload. injection Hload as Hc.
  cbn [fst]. unfold savedState. split.
  - apply (collection_loaded_nil (Some (collection s))).
  - unfold currentDay at 1. cbn [heap currentLog fmap option_fmap option_map].
    unfold currentDay. rewrite Hcl. cbn [fmap option_fmap option_map].
    f_equal. symmetry. exact Hc.
Qed.

(** X14 -- no empty entry.  With either variant, when no stored entry and
    no entry already in the store has the empty string as its text, none
    has after the panel is opened and after any sequence of listener
    calls. *)
Theorem session_texts_stay_nonempty
    (v : Script) (r : option (obj DayLog)) (d : Clock) (cs : list Call)
    (p : Page)
    (Hheap : textsNonEmpty (panel p) = true)
    (Hstored : forallb (fun o : DayLog => forallb (fun e => truthy (snd e)) o)
                 (map snd (daysOf r)) = true) :
  textsNonEmpty (panel (session localeCompare v r d cs p)) = true.
Proof.
  unfold session.
  apply (runCalls_keeps localeCompare
           (fun s => is_Some (currentLog s) /\ textsNonEmpty s = true)).
  - now intros s [Hs _].
  - intros s cl d' v' [_ Hs] Hcl Hv. split; [now exists cl|].
    unfold textsNonEmpty, entryState, savedState in *. cbn [heap].
    rewrite heapAfterEntry_insert.
    apply forallb_insert; [exact Hs|].
    apply objSet_texts; [now apply deref_texts | exact Hv].
  - assert (Hl : textsNonEmpty (loadedState r (panel p)) = true).
    { unfold textsNonEmpty, loadedState in *. cbn [heap].
      now rewrite forallb_texts_app, Hheap, Hstored. }
    unfold textsNonEmpty in Hl.
    unfold opened, onStorageLoaded. cbn [panel]. destruct v.
    + rewrite onStorageLoaded_popup_run. cbv zeta.
      destruct (noLatestKey (logs (loadedState r (panel p))));
        [|destruct (objGet (logs (loadedState r (panel p))) (todayKeyOf d))];
        cbn [fst]; unfold savedState, textsNonEmpty; cbn [heap currentLog];
        (split; [eauto|]); rewrite ?forallb_texts_app, Hl; reflexivity.
    + rewrite onStorageLoaded_part000_run. cbv zeta.
      destruct (objGet (logs (loadedState r (panel p))) (todayKeyOf d));
        cbn [fst]; unfold savedState, textsNonEmpty; cbn [heap currentLog];
        (split; [eauto|]); rewrite ?forallb_texts_app, Hl; reflexivity.
Qed.

(** X15 -- navigation.  The navigation clicks never touch the script's
    data and the other listeners never touch the sections: the data after
    a session is that of the session without its navigation clicks.  Once
    a navigation click has occurred exactly one of the two sections is
    hidden, and it is the one the last such click hides. *)
Theorem navigation_is_separate
    (cs : list Call) (p : Page)
    (Hnav : existsb isNavigation cs = true) :
  panel (runCalls localeCompare cs p)
  = panel (runCalls localeCompare
             (List.filter (fun c => negb (isNavigation c)) cs) p)
  /\ todayHidden (sections (runCalls localeCompare cs p))
     = negb (allHidden (sections (runCalls localeCompare cs p)))
  /\ sections (runCalls localeCompare (cs ++ [CallShowLogs]) p)
     = mkSections true false
  /\ sections (runCalls localeCompare (cs ++ [CallShowToday]) p)
     = mkSections false true.
Proof.
  split; [|split; [|split; rewrite runCalls_snoc; reflexivity]].
  - clear Hnav. induction cs as [|c cs IH] using rev_ind; [reflexivity|].
    rewrite List.filter_app, runCalls_snoc.
    destruct c as [e value d|value d| |]; cbn [List.filter isNavigation negb].
    + rewrite runCalls_snoc. cbn [dispatch panel]. now rewrite IH.
    + rewrite runCalls_snoc. cbn [dispatch panel]. now rewrite IH.
    + rewrite app_nil_r. exact IH.
    + rewrite app_nil_r. exact IH.
  - induction cs as [|c cs IH] using rev_ind; [discriminate|].
    rewrite runCalls_snoc. rewrite existsb_app in Hnav.
    destruct c as [e value d|value d| |]; cbn [dispatch sections];
      try reflexivity; cbn in Hnav; rewrite orb_false_r in Hnav; now apply IH.
Qed.

End SessionData.

(* ===================================================================== *)
(** * Keys and the clock *)
(* ===================================================================== *)

Lemma digitChar_compare a b :
  Ascii.compare (digitChar a) (digitChar b) = (a mod 10 ?= b mod 10).
Proof.
  unfold digitChar, Ascii.compare.
  assert (Ha : 0 <= a mod 10 < 10) by (apply Z.mod_pos_bound; lia).
  assert (Hb : 0 <= b mod 10 < 10) by (apply Z.mod_pos_bound; lia).
  rewrite !N_ascii_embedding by lia.
  rewrite <- N2Z.inj_compare, !N2Z.inj_add, !Z2N.id by lia.
  apply Z.add_compare_mono_l.
Qed.

Lemma secondOfDay_mod t : secondOfDay t = (t / 1000) mod 86400.
Proof.
  unfold secondOfDay, HourFromTime, MinFromTime, SecFromTime,
    msPerHour, msPerMinute, msPerSecond.
  change 3600000 with (1000 * 3600). change 60000 with (1000 * 60).
  rewrite <- !Z.div_div by lia.
  generalize (t / 1000). intros q.
  Z.div_mod_to_equations; lia.
Qed.

Ltac two_digits x :=
  let q := fresh "q" in let r := fresh "r" in
  let Eq := fresh "E" in let Bq := fresh "B" in let Br := fresh "B" in
  rewrite (Z.mod_small (x / 10))
    by (split; [apply Z.div_pos; lia | apply Z.div_lt_upper_bound; lia]);
  pose proof (Z.div_mod x 10 ltac:(lia)) as Eq;
  pose proof (Z.mod_pos_bound x 10 ltac:(lia)) as Br;
  assert (Bq : 0 <= x / 10 < 10)
    by (split; [apply Z.div_pos; lia | apply Z.div_lt_upper_bound; lia]);
  set (q := x / 10) in *; set (r := x mod 10) in *;
  clearbody q r.

Lemma hms_compare t1 t2 :
  String.compare (hms t1) (hms t2) = (secondOfDay t1 ?= secondOfDay t2).
Proof.
  rewrite !hms_chars. cbn [String.compare]. rewrite !digitChar_compare.
  change (Ascii.compare ":" ":") with Eq. cbv iota.
  unfold secondOfDay.
  assert (H1 : 0 <= HourFromTime t1 < 24) by (apply Z.mod_pos_bound; lia).
  assert (H2 : 0 <= HourFromTime t2 < 24) by (apply Z.mod_pos_bound; lia).
  assert (M1 : 0 <= MinFromTime t1 < 60) by (apply Z.mod_pos_bound; lia).
  assert (M2 : 0 <= MinFromTime t2 < 60) by (apply Z.mod_pos_bound; lia).
  assert (S1 : 0 <= SecFromTime t1 < 60) by (apply Z.mod_pos_bound; lia).
  assert (S2 : 0 <= SecFromTime t2 < 60) by (apply Z.mod_pos_bound; lia).
  generalize dependent (HourFromTime t1). generalize dependent (HourFromTime t2).
  generalize dependent (MinFromTime t1). generalize dependent (MinFromTime t2).
  generalize dependent (SecFromTime t1). generalize dependent (SecFromTime t2).
  intros s2 S2 s1 S1 m2 M2 m1 M1 h2 H2 h1 H1.
  two_digits h1. two_digits h2. two_digits m1. two_digits m2.
  two_digits s1. two_digits s2.
  repeat match goal with
  | |- context [match (?a ?= ?b) with _ => _ end] =>
      destruct (Z.compare_spec a b)
  end;
  symmetry;
  first [ apply Z.compare_eq_iff | apply Z.compare_lt_iff | apply Z.compare_gt_iff ];
  lia.
Qed.

Lemma seconds_compare_same_day t1 t2 :
  Day t1 = Day t2 ->
  (secondOfDay t1 ?= secondOfDay t2) = (t1 / 1000 ?= t2 / 1000).
Proof.
  unfold Day, msPerDay. rewrite !secondOfDay_mod.
  change 86400000 with (1000 * 86400). rewrite <- !Z.div_div by lia.
  generalize (t1 / 1000) (t2 / 1000). intros q1 q2 Hd.
  pose proof (Z.div_mod q1 86400 ltac:(lia)) as E1.
  pose proof (Z.div_mod q2 86400 ltac:(lia)) as E2.
  rewrite Hd in E1.
  destruct (Z.compare_spec (q1 mod 86400) (q2 mod 86400));
    symmetry;
    first [ apply Z.compare_eq_iff | apply Z.compare_lt_iff | apply Z.compare_gt_iff ];
    lia.
Qed.

Lemma compare_refl_string s : String.compare s s = Eq.
Proof.
  pose proof (String.compare_antisym s s) as H.
  now destruct (String.compare s s).
Qed.

Lemma todayKeyOf_slice d : todayKeyOf d = slice0 10 (isoDate (timeValue d)).
Proof.
  unfold todayKeyOf, toISOString, isoDate, isoYear.
  destruct ((0 <=? YearFromTime (timeValue d))
            && (YearFromTime (timeValue d) <=? 9999));
    [|destruct (YearFromTime (timeValue d) <? 0)]; reflexivity.
Qed.

(** X16 -- time keys follow the clock.  For two clock readings on the same
    local day, the time keys compare, as strings, the way the readings
    compare in whole seconds; so two entries share a time key exactly when
    they are recorded within the same second, and a later second gives a
    greater key. *)
Theorem time_keys_follow_the_clock (d1 d2 : Clock)
    (Hsame : Day (LocalTime d1) = Day (LocalTime d2)) :
  String.compare (currentTimeOf d1) (currentTimeOf d2)
  = (LocalTime d1 / 1000 ?= LocalTime d2 / 1000)
  /\ (currentTimeOf d1 = currentTimeOf d2
      <-> LocalTime d1 / 1000 = LocalTime d2 / 1000).
Proof.
  assert (H : String.compare (currentTimeOf d1) (currentTimeOf d2)
              = (LocalTime d1 / 1000 ?= LocalTime d2 / 1000)).
  { rewrite !currentTimeOf_hms, hms_compare.
    now apply seconds_compare_same_day. }
  split; [exact H|]. split.
  - intros E. rewrite E, compare_refl_string in H.
    symmetry in H. now apply Z.compare_eq_iff in H.
  - intros E. apply String.compare_eq_iff. rewrite H.
    now apply Z.compare_eq_iff.
Qed.

(** X17 -- the day key follows the UTC day only.  Two clock readings on
    the same UTC day give the same day key, whatever their local zones and
    whatever the year. *)
Theorem day_key_is_fixed_for_the_utc_day (d1 d2 : Clock)
    (Hsame : Day (timeValue d1) = Day (timeValue d2)) :
  todayKeyOf d1 = todayKeyOf d2.
Proof.
  rewrite !todayKeyOf_slice. f_equal. now apply isoDate_same_day.
Qed.

(* ===================================================================== *)
(** * The further properties at a concrete session *)
(* ===================================================================== *)

(** A click on the add button before the panel is opened. *)
Lemma submit_before_load_throws_at_initial :
  currentLog initialState = None
  /\ truthy (trim "early") = true
  /\ logEntry codeUnitCompare nextMorning "early" initialState
     = (initialState, None)
  /\ onAddLogClick codeUnitCompare "early" nextMorning initialState
     = (initialState, None)
  /\ onKeydown codeUnitCompare (mkKeyEvent "Enter" false) "early" nextMorning
       initialState = (initialState, None).
Proof.
  assert (H1 : currentLog initialState = None) by reflexivity.
  assert (H2 : truthy (trim "early") = true) by reflexivity.
  split; [exact H1|]. split; [exact H2|].
  exact (submit_before_load_throws codeUnitCompare "early" nextMorning
           initialState H1 H2).
Defined.

(** One entry in [sampleState]: the resulting day log and its keys. *)
Lemma logEntry_is_one_assignment_at_sample :
  currentLog sampleState = Some 1%nat
  /\ (1 < length (heap sampleState))%nat
  /\ exists s',
      logEntry codeUnitCompare nextMorning "Wrote design doc" sampleState
        = (s', Some tt)
      /\ currentDay s'
         = Some (objSet (deref (heap sampleState) 1)
                   (currentTimeOf nextMorning) "Wrote design doc")
      /\ objKeys (deref (heap s') 1)
         = match objGet (deref (heap sampleState) 1) (currentTimeOf nextMorning)
           with
           | Some _ => objKeys (deref (heap sampleState) 1)
           | None => (objKeys (deref (heap sampleState) 1)
                        ++ [currentTimeOf nextMorning])%list
           end.
Proof.
  assert (H1 : currentLog sampleState = Some 1%nat) by reflexivity.
  assert (H2 : (1 < length (heap sampleState))%nat) by (cbn; lia).
  split; [exact H1|]. split; [exact H2|].
  exact (logEntry_is_one_assignment codeUnitCompare nextMorning
           "Wrote design doc" sampleState 1%nat H1 H2).
Defined.

(** A render of [sampleState]. *)
Lemma render_shows_every_entry_at_sample :
  currentLog sampleState = Some 1%nat
  /\ exists s',
      updateUIState codeUnitCompare sampleState = (s', Some tt)
      /\ heap s' = heap sampleState /\ logs s' = logs sampleState
      /\ currentLog s' = currentLog sampleState
      /\ storageWrites s' = storageWrites sampleState
      /\ Permutation (todayList (view s')) (deref (heap sampleState) 1)
      /\ Permutation (map fst (allList (view s'))) (objKeys (logs sampleState))
      /\ Forall (fun item =>
                   exists l, In (fst item, l) (logs sampleState)
                             /\ Permutation (snd item)
                                  (deref (heap sampleState) l))
                (allList (view s')).
Proof.
  assert (H1 : currentLog sampleState = Some 1%nat) by reflexivity.
  split; [exact H1|].
  exact (render_shows_every_entry codeUnitCompare sampleState 1%nat H1).
Defined.

(** One entry in [sampleState]: what is on screen afterwards. *)
Lemma recorded_entry_is_shown_at_sample :
  currentLog sampleState = Some 1%nat
  /\ (1 < length (heap sampleState))%nat
  /\ exists s',
      logEntry codeUnitCompare nextMorning "Wrote design doc" sampleState
        = (s', Some tt)
      /\ In (currentTimeOf nextMorning, "Wrote design doc")
            (todayList (view s'))
      /\ addLogDisabled (view s') = false
      /\ (objGet (logs sampleState) "2024-01-16" = Some 1%nat ->
          showLogsDisabled (view s') = false
          /\ exists item, In item (allList (view s'))
                          /\ fst item = "2024-01-16"
                          /\ In (currentTimeOf nextMorning, "Wrote design doc")
                                (snd item)).
Proof.
  assert (H1 : currentLog sampleState = Some 1%nat) by reflexivity.
  assert (H2 : (1 < length (heap sampleState))%nat) by (cbn; lia).
  split; [exact H1|]. split; [exact H2|].
  exact (recorded_entry_is_shown codeUnitCompare "2024-01-16" nextMorning
           "Wrote design doc" sampleState 1%nat H1 H2).
Defined.

(** [src/popup.js] opening on yesterday's collection. *)
Lemma popup_opens_as_stored_at_sample :
  In "2024-01-15" (objKeys (daysOf (Some storedYesterday)))
  /\ truthy "2024-01-15" = true
  /\ exists s1,
      onStorageLoaded_popup codeUnitCompare (Some storedYesterday) nextMorning
        initialState = (s1, Some tt)
      /\ collection s1 = daysOf (Some storedYesterday)
      /\ currentDay s1
         = Some (default [] (objGet (daysOf (Some storedYesterday))
                               (todayKeyOf nextMorning)))
      /\ storageWrites s1
         = (storageWrites initialState
              ++ [mkStored (daysOf (Some storedYesterday)) (currentDay s1)])%list.
Proof.
  assert (H1 : In "2024-01-15" (objKeys (daysOf (Some storedYesterday))))
    by (left; reflexivity).
  assert (H2 : truthy "2024-01-15" = true) by reflexivity.
  split; [exact H1|]. split; [exact H2|].
  exact (popup_opens_as_stored codeUnitCompare (Some storedYesterday)
           nextMorning initialState "2024-01-15" H1 H2).
Defined.

(** Yesterday's entry through [sampleCalls], with either variant. *)
Lemma session_keeps_entries_at_sample :
  (hasEntry (daysOf (Some storedYesterday)) "2024-01-15" "10:30:00"
   \/ hasEntry (collection
                  (panel (session codeUnitCompare PopupJs (Some storedYesterday)
                            nextMorning [] samplePage)))
        "2024-01-15" "10:30:00")
  /\ hasEntry (collection
                 (panel (session codeUnitCompare PopupJs (Some storedYesterday)
                           nextMorning ([] ++ sampleCalls) samplePage)))
       "2024-01-15" "10:30:00"
  /\ exists w,
       lastWrite (panel (session codeUnitCompare PopupJs (Some storedYesterday)
                           nextMorning ([] ++ sampleCalls) samplePage)) = Some w
       /\ hasEntry (storedLogs w) "2024-01-15" "10:30:00".
Proof.
  assert (H : hasEntry (daysOf (Some storedYesterday)) "2024-01-15" "10:30:00"
              \/ hasEntry (collection
                             (panel (session codeUnitCompare PopupJs
                                       (Some storedYesterday) nextMorning []
                                       samplePage)))
                   "2024-01-15" "10:30:00").
  { left. eexists. split; [reflexivity|]. eexists. reflexivity. }
  split; [exact H|].
  exact (session_keeps_entries codeUnitCompare PopupJs (Some storedYesterday)
           nextMorning [] sampleCalls samplePage "2024-01-15" "10:30:00" H).
Defined.

(** Reopening half a second later from what [sampleCalls] wrote last. *)
Lemma part000_reopen_restores_at_sample :
  todayKeyOf sameSecond = todayKeyOf nextMorning
  /\ lastWrite (panel (session codeUnitCompare Part000 (Some storedYesterday)
                         nextMorning sampleCalls samplePage))
     = Some (mkStored
               [("2024-01-15", [("10:30:00", "Morning standup")]);
                ("2024-01-16", [("15:43:20", "Reviewed it")])]
               (Some [("15:43:20", "Reviewed it")]))
  /\ collection
       (panel (opened codeUnitCompare Part000
                 (Some [("2024-01-15", [("10:30:00", "Morning standup")]);
                        ("2024-01-16", [("15:43:20", "Reviewed it")])])
                 sameSecond samplePage))
     = collection (panel (session codeUnitCompare Part000 (Some storedYesterday)
                            nextMorning sampleCalls samplePage))
  /\ currentDay
       (panel (opened codeUnitCompare Part000
                 (Some [("2024-01-15", [("10:30:00", "Morning standup")]);
                        ("2024-01-16", [("15:43:20", "Reviewed it")])])
                 sameSecond samplePage))
     = currentDay (panel (session codeUnitCompare Part000 (Some storedYesterday)
                            nextMorning sampleCalls samplePage)).
Proof.
  assert (H1 : todayKeyOf sameSecond = todayKeyOf nextMorning) by reflexivity.
  assert (H2 : lastWrite
                 (panel (session codeUnitCompare Part000 (Some storedYesterday)
                           nextMorning sampleCalls samplePage))
               = Some (mkStored
                         [("2024-01-15", [("10:30:00", "Morning standup")]);
                          ("2024-01-16", [("15:43:20", "Reviewed it")])]
                         (Some [("15:43:20", "Reviewed it")])))
    by (vm_compute; reflexivity).
  split; [exact H1|]. split; [exact H2|].
  exact (part000_reopen_restores codeUnitCompare (Some storedYesterday)
           nextMorning sampleCalls samplePage sameSecond samplePage _ H1 H2).
Defined.

(** No empty text after [sampleCalls]. *)
Lemma session_texts_stay_nonempty_at_sample :
  textsNonEmpty (panel samplePage) = true
  /\ forallb (fun o : DayLog => forallb (fun e => truthy (snd e)) o)
       (map snd (daysOf (Some storedYesterday))) = true
  /\ textsNonEmpty
       (panel (session codeUnitCompare Part000 (Some storedYesterday)
                 nextMorning sampleCalls samplePage)) = true.
Proof.
  assert (H1 : textsNonEmpty (panel samplePage) = true) by reflexivity.
  assert (H2 : forallb (fun o : DayLog => forallb (fun e => truthy (snd e)) o)
                 (map snd (daysOf (Some storedYesterday))) = true)
    by reflexivity.
  split; [exact H1|]. split; [exact H2|].
  exact (session_texts_stay_nonempty codeUnitCompare Part000
           (Some storedYesterday) nextMorning sampleCalls samplePage H1 H2).
Defined.

(** The sections after [sampleCalls]. *)
Lemma navigation_is_separate_at_sample :
  existsb isNavigation sampleCalls = true
  /\ panel (runCalls codeUnitCompare sampleCalls samplePage)
     = panel (runCalls codeUnitCompare
                (List.filter (fun c => negb (isNavigation c)) sampleCalls)
                samplePage)
  /\ todayHidden (sections (runCalls codeUnitCompare sampleCalls samplePage))
     = negb (allHidden (sections (runCalls codeUnitCompare sampleCalls
                                    samplePage)))
  /\ sections (runCalls codeUnitCompare (sampleCalls ++ [CallShowLogs])
                 samplePage) = mkSections true false
  /\ sections (runCalls codeUnitCompare (sampleCalls ++ [CallShowToday])
                 samplePage) = mkSections false true.
Proof.
  assert (H : existsb isNavigation sampleCalls = true) by reflexivity.
  split; [exact H|].
  exact (navigation_is_separate codeUnitCompare sampleCalls samplePage H).
Defined.

(** Two readings half a second apart, and their time keys. *)
Lemma time_keys_follow_the_clock_at_sample :
  Day (LocalTime nextMorning) = Day (LocalTime sameSecond)
  /\ String.compare (currentTimeOf nextMorning) (currentTimeOf sameSecond)
     = (LocalTime nextMorning / 1000 ?= LocalTime sameSecond / 1000)
  /\ (currentTimeOf nextMorning = currentTimeOf sameSecond
      <-> LocalTime nextMorning / 1000 = LocalTime sameSecond / 1000).
Proof.
  assert (H : Day (LocalTime nextMorning) = Day (LocalTime sameSecond))
    by reflexivity.
  split; [exact H|].
  exact (time_keys_follow_the_clock nextMorning sameSecond H).
Defined.

(** Two readings of the same UTC day in different zones. *)
Lemma day_key_is_fixed_for_the_utc_day_at_sample :
  Day (timeValue nextMorning) = Day (timeValue (mkClock 1705363200000 (-18000000)))
  /\ todayKeyOf nextMorning = todayKeyOf (mkClock 1705363200000 (-18000000)).
Proof.
  assert (H : Day (timeValue nextMorning)
              = Day (timeValue (mkClock 1705363200000 (-18000000))))
    by reflexivity.
  split; [exact H|].
  exact (day_key_is_fixed_for_the_utc_day nextMorning
           (mkClock 1705363200000 (-18000000)) H).
Defined.
